(** * Mileage tracker client: a shallow embedding of the three client versions

    The repository holds three successive versions of one browser client:
    - [V0]  : the first version (plain table, sequential refresh);
    - [V1]  : the second version (location buttons, summary box);
    - [App] : [mileage_app/static/app.js] (spreadsheet-style UI).

    JavaScript numbers are IEEE-754 doubles and are embedded as Rocq's
    primitive floats; strings are [string]; values read from a JSON body are
    the inductive type [json].  Functions of the browser platform that the
    client calls but does not define ([JSON.parse], [Number.prototype.toFixed],
    [toLocaleString], [String.prototype.toLowerCase], [Date]) are the fields
    of the record [Platform]; every property below holds for every platform,
    and the module [Sample] gives one to compute with.  An [async] function
    is a value of [Async.Task]: what it has done up to its next suspension
    point, and how it goes on once the request it awaits is answered. *)

From Stdlib Require Import Bool List String Ascii ZArith Lia Floats.
From Stdlib Require Import DecimalString.
From Stdlib Require Uint63.
Import ListNotations.

#[local] Set Warnings "-register-all,-inexact-float".
Local Open Scope string_scope.
Local Open Scope list_scope.

(** ** JavaScript values and strings *)

Module JS.

(** The double quote character (code 34). *)
Definition dquote : ascii := Ascii.ascii_of_nat 34.

(** A value produced by [JSON.parse].  An object is its list of own
    properties in insertion order; [JSON.parse] never yields two properties
    with one key. *)
Inductive json : Type :=
| JNull : json
| JBool : bool -> json
| JNum : float -> json
| JStr : string -> json
| JArr : list json -> json
| JObj : list (string * json) -> json.

(** The outcome of an [await]ed call: a thrown [Error] with its message, or
    the returned value. *)
Inductive result (A : Type) : Type :=
| Throw : string -> result A
| Return : A -> result A.
Arguments Throw {A} _.
Arguments Return {A} _.

Definition is_throw {A} (r : result A) : bool :=
  match r with Throw _ => true | Return _ => false end.

(** Truthiness of a number: [0], [-0] and [NaN] are falsy. *)
Definition num_truthy (x : float) : bool :=
  negb (PrimFloat.eqb x 0%float || PrimFloat.is_nan x).

(** Truthiness of a string: only the empty string is falsy. *)
Definition str_truthy (s : string) : bool :=
  match s with EmptyString => false | String _ _ => true end.

(** [ToBoolean] on JSON values. *)
Definition truthy (v : json) : bool :=
  match v with
  | JNull => false
  | JBool b => b
  | JNum x => num_truthy x
  | JStr s => str_truthy s
  | JArr _ => true
  | JObj _ => true
  end.

(** [ToBoolean] on a possibly [undefined] value ([None]). *)
Definition truthy_opt (v : option json) : bool :=
  match v with None => false | Some v => truthy v end.

(** Own-property lookup in an object's property list. *)
Fixpoint assoc {A : Type} (k : string) (l : list (string * A)) : option A :=
  match l with
  | [] => None
  | (k', v) :: l' => if String.eqb k k' then Some v else assoc k l'
  end.

(** [v.detail] for a non-nullish JSON value [v]: objects answer with their
    own property, arrays and primitives have no such property. *)
Definition get_prop (k : string) (v : json) : option json :=
  match v with
  | JObj props => assoc k props
  | _ => None
  end.

(** [Array.prototype.join] with separator [sep] on already converted
    elements. *)
Fixpoint join (sep : string) (l : list string) : string :=
  match l with
  | [] => ""
  | [s] => s
  | s :: l' => s ++ sep ++ join sep l'
  end.

(** Decimal rendering of a natural number, as a template literal renders an
    integer such as an HTTP status. *)
Definition string_of_nat (n : nat) : string :=
  NilZero.string_of_uint (Nat.to_uint n).

(** Decimal rendering of an integer such as a record id. *)
Definition string_of_Z (z : Z) : string :=
  NilZero.string_of_int (Z.to_int z).

(** [hay] begins with [needle]. *)
Fixpoint starts_with (needle hay : string) : bool :=
  match needle, hay with
  | EmptyString, _ => true
  | String _ _, EmptyString => false
  | String c needle', String d hay' =>
      Ascii.eqb c d && starts_with needle' hay'
  end.

(** [String.prototype.includes]: [needle] occurs in [hay] as a contiguous
    substring. *)
Fixpoint includes (needle hay : string) : bool :=
  starts_with needle hay ||
  match hay with
  | EmptyString => false
  | String _ hay' => includes needle hay'
  end.

Section ToString.

(** [Number.prototype.toString], the conversion a template literal and
    [String(x)] apply to a number. *)
Variable Number_toString : float -> string.

(** All conversions succeed, or the first failure. *)
Fixpoint all_some {A : Type} (l : list (option A)) : option (list A) :=
  match l with
  | [] => Some []
  | None :: _ => None
  | Some a :: l' =>
      match all_some l' with
      | Some r => Some (a :: r)
      | None => None
      end
  end.

(** [ToString] on JSON values: what [new Error(v)] stores as its message;
    [None] is a thrown [TypeError].  An object converts through
    [Object.prototype.toString], unless it has a property [toString] of
    its own: a value read from JSON is never callable, [valueOf] then
    answers with the object itself, and the conversion throws.  An array
    joins the conversions of its elements, [null] converting to the empty
    string. *)
Fixpoint ToString (v : json) : option string :=
  match v with
  | JNull => Some "null"
  | JBool true => Some "true"
  | JBool false => Some "false"
  | JNum x => Some (Number_toString x)
  | JStr s => Some s
  | JArr l =>
      option_map (join ",")
        (all_some
           (map (fun e => match e with JNull => Some "" | _ => ToString e end)
                l))
  | JObj props =>
      match assoc "toString" props with
      | Some _ => None
      | None => Some "[object Object]"
      end
  end.

End ToString.

End JS.

Import JS.

(** ** The HTTP layer shared by the three versions *)

Module Http.

(** What the client reads from a [Response]. *)
Record Response : Type := mkResponse {
  ok : bool;
  status : nat;
  text : string
}.

(** [await fetch(url, opts)] followed by [await res.text()]: the promise is
    rejected (network failure, aborted body) or yields a response. *)
Inductive FetchOutcome : Type :=
| Rejected : string -> FetchOutcome
| Resolved : Response -> FetchOutcome.

Section FetchJSON.

(** [JSON.parse]; [None] stands for a thrown [SyntaxError]. *)
Variable JSON_parse : string -> option json.
Variable Number_toString : float -> string.

(** [let data = null; try { data = text ? JSON.parse(text) : null } catch {}] *)
Definition parse_body (text : string) : json :=
  if str_truthy text then
    match JSON_parse text with
    | Some v => v
    | None => JNull
    end
  else JNull.

(** [`HTTP ${res.status}`] *)
Definition http_status_message (res : Response) : string :=
  "HTTP " ++ string_of_nat (status res).

(** [text || `HTTP ${res.status}`] *)
Definition text_or_status (res : Response) : string :=
  if str_truthy (text res) then text res else http_status_message res.

(** [data?.detail] *)
Definition optional_detail (data : json) : option json :=
  match data with
  | JNull => None
  | _ => get_prop "detail" data
  end.

(** The message of the [TypeError] that a failed conversion to string
    throws; its wording is the engine's. *)
Variable conversion_error : string.

(** [new Error(msg)] for a message that is a JSON value: the message of the
    error that ends up thrown. *)
Definition new_Error (msg : json) : string :=
  match ToString Number_toString msg with
  | Some m => m
  | None => conversion_error
  end.

(** app.js: [data?.detail || text || `HTTP ${res.status}`], then
    [new Error(msg)]. *)
Definition error_message (data : json) (res : Response) : string :=
  match optional_detail data with
  | Some d => if truthy d then new_Error d else text_or_status res
  | None => text_or_status res
  end.

(** The first two versions:
    [(data && data.detail) ? data.detail : text || `HTTP ${res.status}`]. *)
Definition error_message_v0 (data : json) (res : Response) : string :=
  if (if truthy data then truthy_opt (get_prop "detail" data) else false)
  then match get_prop "detail" data with
       | Some d => new_Error d
       | None => "undefined"
       end
  else text_or_status res.

Definition fetchJSON_response (res : Response) : result json :=
  let data := parse_body (text res) in
  if negb (ok res) then Throw (error_message data res)
  else Return data.

(** app.js [fetchJSON]. *)
Definition fetchJSON (o : FetchOutcome) : result json :=
  match o with
  | Rejected m => Throw m
  | Resolved res => fetchJSON_response res
  end.

(** [fetchJSON] of the first two versions (they differ from app.js only
    in how the message is selected). *)
Definition fetchJSON_v0 (o : FetchOutcome) : result json :=
  match o with
  | Rejected m => Throw m
  | Resolved res =>
      let data := parse_body (text res) in
      if negb (ok res) then Throw (error_message_v0 data res)
      else Return data
  end.

End FetchJSON.

End Http.


(** ** [escapeHtml] of the first two versions *)

Module Html.

(** The character class of the regular expression: ampersand, less-than,
    greater-than, double quote and apostrophe. *)
Definition html_special (c : ascii) : bool :=
  Ascii.eqb c "&" || Ascii.eqb c "<" || Ascii.eqb c ">"
  || Ascii.eqb c dquote || Ascii.eqb c "'".

(** The object literal the replacement callback indexes with the match. *)
Definition entities : list (string * string) :=
  [ ("&", "&amp;"); ("<", "&lt;"); (">", "&gt;");
    (String dquote "", "&quot;"); ("'", "&#039;") ].

(** [s.replace(/[class]/g, f)]: every character of the class is a match [m]
    of length one and is replaced by [f(m)]; a callback that answers
    [undefined] inserts the text [undefined]. *)
Fixpoint replace_class (cls : ascii -> bool) (f : string -> option string)
    (s : string) : string :=
  match s with
  | EmptyString => EmptyString
  | String c s' =>
      (if cls c
       then match f (String c "") with Some r => r | None => "undefined" end
       else String c "")
      ++ replace_class cls f s'
  end.

(** [str || EMPTY] for a string that may be [null] or [undefined]. *)
Definition or_empty (str : option string) : string :=
  match str with
  | Some s => if str_truthy s then s else ""
  | None => ""
  end.

(** [escapeHtml] as both early versions define it. *)
Definition escapeHtml (str : option string) : string :=
  replace_class html_special (fun m => assoc m entities) (or_empty str).

(** The entity the text of the claim assigns to a character. *)
Definition entity_of_char (c : ascii) : string :=
  if Ascii.eqb c "&" then "&amp;"
  else if Ascii.eqb c "<" then "&lt;"
  else if Ascii.eqb c ">" then "&gt;"
  else if Ascii.eqb c dquote then "&quot;"
  else if Ascii.eqb c "'" then "&#039;"
  else String c "".

(** Character-by-character replacement, following the words of the
    specification. *)
Fixpoint escape_spec (s : string) : string :=
  match s with
  | EmptyString => EmptyString
  | String c s' => entity_of_char c ++ escape_spec s'
  end.

End Html.

(** ** The data the server owns *)

Module Data.

Record Trip : Type := mkTrip {
  trip_id : Z;
  trip_date : string;
  purpose : string;
  origin : string;
  destination : string;
  round_trip : bool;
  distance_km : float;
  (** absent or [null] in older records *)
  distance_one_way_km : option float
}.

Record Location : Type := mkLocation {
  loc_id : Z;
  loc_name : string;
  address : string;
  postal_code : option string;
  is_home : bool
}.

(** The reply of [GET /api/summary].  The estimate is read under the key
    [reimbursement_estimate_dkk] by the first version and under
    [reimbursement_dkk] by the second; app.js does not read it. *)
Record Summary : Type := mkSummary {
  trip_count : Z;
  total_km : float;
  reimbursement_estimate : option float;
  rate_high : float;
  rate_low : float
}.

Record CalendarEvent : Type := mkCalendarEvent {
  ev_date : string;
  ev_title : string;
  ev_location : string
}.

End Data.

Import Data.

(** ** Functions of the browser the client relies on *)

Record Platform : Type := mkPlatform {
  (** [JSON.parse]; [None] is a thrown [SyntaxError] *)
  JSON_parse : string -> option json;
  (** [JSON.stringify] *)
  JSON_stringify : json -> string;
  (** [String(x)] for a number [x] *)
  Number_toString : float -> string;
  (** [x.toFixed(d)] *)
  toFixed : float -> nat -> string;
  (** [x.toLocaleString] for the locale da-DK with the options
      [minimumFractionDigits] and [maximumFractionDigits] *)
  toLocaleString : float -> option nat -> option nat -> string;
  (** [s.toLowerCase()] *)
  toLowerCase : string -> string;
  (** [parseInt(s, 10)]; [None] is [NaN] *)
  parseInt : string -> option Z;
  (** [new Date(s).getMonth()]; [None] is [NaN] (invalid date) *)
  Date_getMonth : string -> option Z;
  (** [new Date(s).getDate()]; [None] is [NaN] *)
  Date_getDate : string -> option Z;
  (** [new Date(s).toLocaleDateString] for da-DK, numeric day, short month *)
  Date_short : string -> string;
  (** [div.textContent = s; div.innerHTML]: serialisation of a text node *)
  text_to_html : string -> string
}.

(** ** Requests and asynchronous functions *)

Module Async.

(** The second argument of [fetch]. *)
Record HttpRequest : Type := mkRequest {
  method : string;
  url : string;
  headers : list (string * string);
  (** the request body, already serialised *)
  body : option string
}.

(** [fetchJSON(url)] with no options. *)
Definition GET (u : string) : HttpRequest :=
  {| method := "GET"; url := u; headers := []; body := None |}.

(** What the caller of [fetchJSON] goes on to read from the reply. *)
Inductive Endpoint : Type :=
| Trips | SummaryOf | CreateTrip | UpdateTrip | DeleteTrip | Calendar.

Record Req : Type := mkReq {
  endpoint : Endpoint;
  http : HttpRequest
}.

(** The outcome of [await fetchJSON(...)] at each endpoint: the thrown
    message or the decoded reply.  A body that is empty comes back as
    [null], which is [None] where the caller tests for it. *)
Definition Reply (r : Req) : Type :=
  match endpoint r with
  | Trips => result (list Trip)
  | SummaryOf => result Summary
  | CreateTrip => result Trip
  | UpdateTrip => result unit
  | DeleteTrip => result unit
  | Calendar => result (option (list CalendarEvent))
  end.

(** The server and the network, as the client observes them. *)
Definition Server : Type := forall r : Req, Reply r.

Section Tasks.

(** The mutable world of one client version: its variables and the page. *)
Variable W : Type.

(** An [async] function that has run up to its next suspension point.
    - [Done], [Failed m]: the promise is fulfilled, or rejected with [m];
    - [Await r k]: request [r] is in flight; [k] is the rest of the function;
    - [All2 a b k]: suspended on [Promise.all([a, b])];
    - [Background bg t]: [t] goes on while [bg], a promise nobody awaits any
      more, still runs. *)
Inductive Task : Type :=
| Done : Task
| Failed : string -> Task
| Await : forall r : Req, (Reply r -> W -> W * Task) -> Task
| All2 : Task -> Task -> (result unit -> W -> W * Task) -> Task
| Background : Task -> Task -> Task.

(** The requests in flight, left to right. *)
Fixpoint pending (t : Task) : list Req :=
  match t with
  | Done | Failed _ => []
  | Await r _ => [r]
  | All2 a b _ => pending a ++ pending b
  | Background bg t' => pending bg ++ pending t'
  end.

(** A promise nobody awaits is dropped once it has settled. *)
Definition background (bg t : Task) : Task :=
  match bg with
  | Done | Failed _ => t
  | _ => Background bg t
  end.

(** [Promise.all([a, b])] with continuation [k] once [a] or [b] may have
    settled: rejected as soon as one of the two is rejected (the other keeps
    running, unobserved), fulfilled when both are.  The third component
    lists the requests the continuation issues. *)
Definition join2 (a b : Task) (k : result unit -> W -> W * Task) (w : W)
  : W * Task * list Req :=
  match a, b with
  | Failed m, _ =>
      let (w', t) := k (Throw m) w in (w', background b t, pending t)
  | _, Failed m =>
      let (w', t) := k (Throw m) w in (w', background a t, pending t)
  | Done, Done => let (w', t) := k (Return tt) w in (w', t, pending t)
  | _, _ => (w, All2 a b k, [])
  end.

(** [await Promise.all([a, b])] followed by [k], inside a function body. *)
Definition all2 (a b : Task) (k : result unit -> W -> W * Task) (w : W)
  : W * Task :=
  fst (join2 a b k w).

(** [await t] followed by [k], where [t] is the promise of a called
    [async] function. *)
Fixpoint await_task (t : Task) (k : result unit -> W -> W * Task) (w : W)
  : W * Task :=
  match t with
  | Done => k (Return tt) w
  | Failed m => k (Throw m) w
  | Await r k0 =>
      (w, Await r (fun rep w1 =>
                     let (w2, t2) := k0 rep w1 in await_task t2 k w2))
  | All2 a b k0 =>
      (w, All2 a b (fun res w1 =>
                      let (w2, t2) := k0 res w1 in await_task t2 k w2))
  | Background bg t' =>
      let (w', t'') := await_task t' k w in (w', background bg t'')
  end.

(** The [i]-th request in flight is answered by [srv]; the function that
    awaited it runs on to its next suspension point, and so does every
    function awaiting that one.  The third component lists the requests
    issued on the way. *)
Fixpoint settle (srv : Server) (i : nat) (t : Task) (w : W)
  : W * Task * list Req :=
  match t with
  | Done | Failed _ => (w, t, [])
  | Await r k =>
      match i with
      | O => let (w', t') := k (srv r) w in (w', t', pending t')
      | S _ => (w, t, [])
      end
  | All2 a b k =>
      if Nat.ltb i (List.length (pending a))
      then let '(w', a', issued) := settle srv i a w in
           let '(w'', t', issued') := join2 a' b k w' in
           (w'', t', issued ++ issued')
      else let '(w', b', issued) :=
             settle srv (i - List.length (pending a)) b w in
           let '(w'', t', issued') := join2 a b' k w' in
           (w'', t', issued ++ issued')
  | Background bg t' =>
      if Nat.ltb i (List.length (pending bg))
      then let '(w', bg', issued) := settle srv i bg w in
           (w', background bg' t', issued)
      else let '(w', t'', issued) :=
             settle srv (i - List.length (pending bg)) t' w in
           (w', background bg t'', issued)
  end.

(** What an observer of the network sees. *)
Inductive Event : Type :=
| Issued : Req -> Event
| Answered : Req -> Event.

(** A running call: the world, the suspended function and the network
    events so far. *)
Record Run : Type := mkRun {
  world : W;
  task : Task;
  events : list Event
}.

(** Calling an [async] function: it runs synchronously up to its first
    suspension; the requests then in flight have just been issued. *)
Definition call (f : W -> W * Task) (w : W) : Run :=
  let (w', t) := f w in
  {| world := w'; task := t; events := map Issued (pending t) |}.

(** One network event: the [i]-th request in flight is answered. *)
Definition step (srv : Server) (i : nat) (r : Run) : Run :=
  match nth_error (pending (task r)) i with
  | None => r
  | Some q =>
      let '(w', t', issued) := settle srv i (task r) (world r) in
      {| world := w'; task := t';
         events := events r ++ [Answered q] ++ map Issued issued |}
  end.

(** A schedule names, event after event, which request in flight is
    answered next. *)
Fixpoint run (srv : Server) (schedule : list nat) (r : Run) : Run :=
  match schedule with
  | [] => r
  | i :: rest => run srv rest (step srv i r)
  end.

(** Nothing is in flight any more. *)
Definition quiescent (r : Run) : bool :=
  match pending (task r) with [] => true | _ :: _ => false end.

(** The promise of the call: still unsettled ([None]) while the function
    is suspended, fulfilled, or rejected with a message.  A promise that
    nobody awaits has no part in it. *)
Fixpoint settled (t : Task) : option (result unit) :=
  match t with
  | Done => Some (Return tt)
  | Failed m => Some (Throw m)
  | Await _ _ | All2 _ _ _ => None
  | Background _ t' => settled t'
  end.

End Tasks.

Arguments Done {W}.
Arguments Failed {W} _.
Arguments Await {W} _ _.
Arguments All2 {W} _ _ _.
Arguments Background {W} _ _.
Arguments pending {W} _.
Arguments join2 {W} _ _ _ _.
Arguments all2 {W} _ _ _ _.
Arguments await_task {W} _ _ _.
Arguments settle {W} _ _ _ _.
Arguments call {W} _ _.
Arguments step {W} _ _ _.
Arguments run {W} _ _ _.
Arguments quiescent {W} _.
Arguments settled {W} _.
Arguments world {W} _.
Arguments task {W} _.
Arguments events {W} _.

(** *** Calling a function of a part of the world *)

Section Lift.

(** [S] is a larger world of which [W] is a part. *)
Variables W S : Type.
Variable get : S -> W.
Variable set : W -> S -> S.

(** A suspended function over [W], seen as one over [S]. *)
Fixpoint lift_task (t : Task W) : Task S :=
  match t with
  | Done => Done
  | Failed m => Failed m
  | Await r k =>
      Await r (fun rep s =>
                 let (w', t') := k rep (get s) in (set w' s, lift_task t'))
  | All2 a b k =>
      All2 (lift_task a) (lift_task b)
        (fun res s =>
           let (w', t') := k res (get s) in (set w' s, lift_task t'))
  | Background bg t' => Background (lift_task bg) (lift_task t')
  end.

(** The call of an [async] function over [W] from the larger world. *)
Definition lift (f : W -> W * Task W) (s : S) : S * Task S :=
  let (w', t) := f (get s) in (set w' s, lift_task t).

End Lift.

Arguments lift_task {W S} _ _ _.
Arguments lift {W S} _ _ _ _.

(** Both orders of arrival, for a call that has two requests in flight:
    the first request answered first, or the second. *)
Definition trips_first : list nat := [0; 0]%nat.
Definition summary_first : list nat := [1; 0]%nat.

End Async.

Import Async.

(** The text a template literal shows for an integer that may be [NaN]. *)
Definition year_text (y : option Z) : string :=
  match y with Some z => string_of_Z z | None => "NaN" end.

(** ** The first version of the client *)

Module V0.

(** One table row, cell by cell as the row template fills them. *)
Record Row : Type := mkRow {
  row_date : string;
  row_purpose : string;
  row_origin : string;
  row_destination : string;
  row_note : string;
  row_km : string;
  row_id : Z
}.

(** The elements of the page the script reads and writes. *)
Record Page : Type := mkPage {
  in_year : string;
  in_trip_date : string;
  in_purpose : string;
  in_origin : string;
  in_destination : string;
  in_round_trip : bool;
  in_travel_mode : string;
  el_status : string;
  el_error : string;
  el_tbody : list Row;
  el_summary : string
}.

Definition setStatus (msg : string) (pg : Page) : Page :=
  {| in_year := in_year pg; in_trip_date := in_trip_date pg;
     in_purpose := in_purpose pg; in_origin := in_origin pg;
     in_destination := in_destination pg; in_round_trip := in_round_trip pg;
     in_travel_mode := in_travel_mode pg;
     el_status := msg; el_error := el_error pg;
     el_tbody := el_tbody pg; el_summary := el_summary pg |}.

Definition setError (msg : string) (pg : Page) : Page :=
  {| in_year := in_year pg; in_trip_date := in_trip_date pg;
     in_purpose := in_purpose pg; in_origin := in_origin pg;
     in_destination := in_destination pg; in_round_trip := in_round_trip pg;
     in_travel_mode := in_travel_mode pg;
     el_status := el_status pg; el_error := msg;
     el_tbody := el_tbody pg; el_summary := el_summary pg |}.

Definition set_tbody (rows : list Row) (pg : Page) : Page :=
  {| in_year := in_year pg; in_trip_date := in_trip_date pg;
     in_purpose := in_purpose pg; in_origin := in_origin pg;
     in_destination := in_destination pg; in_round_trip := in_round_trip pg;
     in_travel_mode := in_travel_mode pg;
     el_status := el_status pg; el_error := el_error pg;
     el_tbody := rows; el_summary := el_summary pg |}.

Definition set_summary (s : string) (pg : Page) : Page :=
  {| in_year := in_year pg; in_trip_date := in_trip_date pg;
     in_purpose := in_purpose pg; in_origin := in_origin pg;
     in_destination := in_destination pg; in_round_trip := in_round_trip pg;
     in_travel_mode := in_travel_mode pg;
     el_status := el_status pg; el_error := el_error pg;
     el_tbody := el_tbody pg; el_summary := s |}.

Section WithPlatform.

Variable P : Platform.

(** The row template of [refresh]. *)
Definition render_row (t : Trip) : Row :=
  {| row_date := trip_date t;
     row_purpose := Html.escapeHtml (Some (purpose t));
     row_origin := Html.escapeHtml (Some (origin t));
     row_destination := Html.escapeHtml (Some (destination t));
     row_note := if round_trip t then "(round trip)" else "";
     row_km := toFixed P (distance_km t) 3;
     row_id := trip_id t |}.

(** [s.reimbursement_estimate_dkk?.toFixed(2)] inside the template. *)
Definition estimate_text (s : Summary) : string :=
  match reimbursement_estimate s with
  | Some r => toFixed P r 2
  | None => "undefined"
  end.

(** The summary line of [refresh]. *)
Definition summary_line (s : Summary) : string :=
  "Trips: " ++ string_of_Z (trip_count s)
  ++ " | Total km: " ++ toFixed P (total_km s) 3
  ++ " | Est. reimbursement: " ++ estimate_text s ++ " DKK".

Definition trips_request (year : option Z) : Req :=
  {| endpoint := Trips; http := GET ("/api/trips?year=" ++ year_text year) |}.

Definition summary_request (year : option Z) : Req :=
  {| endpoint := SummaryOf;
     http := GET ("/api/summary?year=" ++ year_text year) |}.

(** [refresh]: the trips are awaited and rendered, and only then is the
    summary requested. *)
Definition refresh (pg : Page) : Page * Task Page :=
  let pg := setError "" pg in
  let year := parseInt P (in_year pg) in
  (pg,
   Await (trips_request year) (fun (r : result (list Trip)) pg =>
     match r with
     | Throw m => (pg, Failed m)
     | Return trips =>
         let pg := set_tbody (map render_row trips) pg in
         (pg,
          Await (summary_request year) (fun (r : result Summary) pg =>
            match r with
            | Throw m => (pg, Failed m)
            | Return s => (set_summary (summary_line s) pg, Done)
            end))
     end)).

(** The object literal [payload] of [addTrip]. *)
Definition payload (pg : Page) : json :=
  JObj [ ("trip_date", JStr (in_trip_date pg));
         ("purpose", JStr (in_purpose pg));
         ("origin", JStr (in_origin pg));
         ("destination", JStr (in_destination pg));
         ("round_trip", JBool (in_round_trip pg));
         ("travel_mode", JStr (in_travel_mode pg)) ].

Definition post_request (pg : Page) : Req :=
  {| endpoint := CreateTrip;
     http := {| method := "POST"; url := "/api/trips";
                headers := [("Content-Type", "application/json")];
                body := Some (JSON_stringify P (payload pg)) |} |}.

(** The [catch] block of [addTrip]. *)
Definition addTrip_catch (m : string) (pg : Page) : Page :=
  setStatus "" (setError m pg).

Definition addTrip (pg : Page) : Page * Task Page :=
  let pg := setError "" pg in
  let pg := setStatus "Calculating route distance..." pg in
  (pg,
   Await (post_request pg) (fun (r : result Trip) pg =>
     match r with
     | Throw m => (addTrip_catch m pg, Done)
     | Return _ =>
         let pg := setStatus "Saved!" pg in
         let (pg, t) := refresh pg in
         await_task t (fun res pg =>
           match res with
           | Throw m => (addTrip_catch m pg, Done)
           | Return _ => (pg, Done)
           end) pg
     end)).

End WithPlatform.

End V0.

(** [t.distance_one_way_km || (t.round_trip ? t.distance_km / 2 : t.distance_km)],
    as the second version and app.js compute the one-way distance of a row. *)
Definition one_way_fallback (t : Trip) : float :=
  if round_trip t then (distance_km t / 2)%float else distance_km t.

Definition one_way_km (t : Trip) : float :=
  match distance_one_way_km t with
  | Some d => if num_truthy d then d else one_way_fallback t
  | None => one_way_fallback t
  end.

(** [loc.postal_code ? `${loc.address}, ${loc.postal_code}` : loc.address] *)
Definition formatAddress (loc : Location) : string :=
  match postal_code loc with
  | Some pc => if str_truthy pc then address loc ++ ", " ++ pc
               else address loc
  | None => address loc
  end.

(** ** The second version of the client *)

Module V1.

Record Row : Type := mkRow {
  row_date : string;
  row_purpose : string;
  row_origin : string;
  row_destination : string;
  row_badge : bool;
  row_km : string;
  row_one_way : string;
  row_factor : string;
  row_id : Z
}.

(** The table body: the notice shown for an empty year, or the rows. *)
Inductive TableBody : Type :=
| EmptyNotice : TableBody
| Rows : list Row -> TableBody.

(** The summary box, figure by figure. *)
Record SummaryBox : Type := mkSummaryBox {
  box_year : string;
  box_trips : string;
  box_km : string;
  box_amount : string;
  box_rate : string
}.

Record LocButton : Type := mkLocButton {
  btn_class : string;
  btn_text : string;
  btn_title : string
}.

(** The script's variables and the elements of the page it touches.
    [console] keeps the label of each [console.error] call. *)
Record Page : Type := mkPage {
  locations : list Location;
  selectedOrigin : option Z;
  selectedDest : option Z;
  in_year : string;
  in_trip_date : string;
  in_purpose : string;
  in_origin : string;
  in_destination : string;
  in_round_trip : bool;
  btn_add_disabled : bool;
  btn_add_text : string;
  el_status : string;
  el_status_class : string;
  el_tbody : TableBody;
  el_summary : option SummaryBox;
  el_origin_locations : list LocButton;
  el_dest_locations : list LocButton;
  console : list string
}.

(** The parts of the page grouped for updates. *)
Definition with_status (msg cls : string) (pg : Page) : Page :=
  {| locations := locations pg; selectedOrigin := selectedOrigin pg;
     selectedDest := selectedDest pg; in_year := in_year pg;
     in_trip_date := in_trip_date pg; in_purpose := in_purpose pg;
     in_origin := in_origin pg; in_destination := in_destination pg;
     in_round_trip := in_round_trip pg;
     btn_add_disabled := btn_add_disabled pg;
     btn_add_text := btn_add_text pg;
     el_status := msg; el_status_class := cls;
     el_tbody := el_tbody pg; el_summary := el_summary pg;
     el_origin_locations := el_origin_locations pg;
     el_dest_locations := el_dest_locations pg; console := console pg |}.

Definition with_tbody (b : TableBody) (pg : Page) : Page :=
  {| locations := locations pg; selectedOrigin := selectedOrigin pg;
     selectedDest := selectedDest pg; in_year := in_year pg;
     in_trip_date := in_trip_date pg; in_purpose := in_purpose pg;
     in_origin := in_origin pg; in_destination := in_destination pg;
     in_round_trip := in_round_trip pg;
     btn_add_disabled := btn_add_disabled pg;
     btn_add_text := btn_add_text pg;
     el_status := el_status pg; el_status_class := el_status_class pg;
     el_tbody := b; el_summary := el_summary pg;
     el_origin_locations := el_origin_locations pg;
     el_dest_locations := el_dest_locations pg; console := console pg |}.

Definition with_summary (b : option SummaryBox) (pg : Page) : Page :=
  {| locations := locations pg; selectedOrigin := selectedOrigin pg;
     selectedDest := selectedDest pg; in_year := in_year pg;
     in_trip_date := in_trip_date pg; in_purpose := in_purpose pg;
     in_origin := in_origin pg; in_destination := in_destination pg;
     in_round_trip := in_round_trip pg;
     btn_add_disabled := btn_add_disabled pg;
     btn_add_text := btn_add_text pg;
     el_status := el_status pg; el_status_class := el_status_class pg;
     el_tbody := el_tbody pg; el_summary := b;
     el_origin_locations := el_origin_locations pg;
     el_dest_locations := el_dest_locations pg; console := console pg |}.

Definition with_console (l : list string) (pg : Page) : Page :=
  {| locations := locations pg; selectedOrigin := selectedOrigin pg;
     selectedDest := selectedDest pg; in_year := in_year pg;
     in_trip_date := in_trip_date pg; in_purpose := in_purpose pg;
     in_origin := in_origin pg; in_destination := in_destination pg;
     in_round_trip := in_round_trip pg;
     btn_add_disabled := btn_add_disabled pg;
     btn_add_text := btn_add_text pg;
     el_status := el_status pg; el_status_class := el_status_class pg;
     el_tbody := el_tbody pg; el_summary := el_summary pg;
     el_origin_locations := el_origin_locations pg;
     el_dest_locations := el_dest_locations pg; console := l |}.

Definition with_button (disabled : bool) (label : string) (pg : Page) : Page :=
  {| locations := locations pg; selectedOrigin := selectedOrigin pg;
     selectedDest := selectedDest pg; in_year := in_year pg;
     in_trip_date := in_trip_date pg; in_purpose := in_purpose pg;
     in_origin := in_origin pg; in_destination := in_destination pg;
     in_round_trip := in_round_trip pg;
     btn_add_disabled := disabled; btn_add_text := label;
     el_status := el_status pg; el_status_class := el_status_class pg;
     el_tbody := el_tbody pg; el_summary := el_summary pg;
     el_origin_locations := el_origin_locations pg;
     el_dest_locations := el_dest_locations pg; console := console pg |}.

(** After a saved trip: purpose and destination are cleared and the
    destination selection is dropped. *)
Definition clear_form (pg : Page) : Page :=
  {| locations := locations pg; selectedOrigin := selectedOrigin pg;
     selectedDest := None; in_year := in_year pg;
     in_trip_date := in_trip_date pg; in_purpose := "";
     in_origin := in_origin pg; in_destination := "";
     in_round_trip := in_round_trip pg;
     btn_add_disabled := btn_add_disabled pg;
     btn_add_text := btn_add_text pg;
     el_status := el_status pg; el_status_class := el_status_class pg;
     el_tbody := el_tbody pg; el_summary := el_summary pg;
     el_origin_locations := el_origin_locations pg;
     el_dest_locations := el_dest_locations pg; console := console pg |}.

Definition with_location_buttons (o d : list LocButton) (pg : Page) : Page :=
  {| locations := locations pg; selectedOrigin := selectedOrigin pg;
     selectedDest := selectedDest pg; in_year := in_year pg;
     in_trip_date := in_trip_date pg; in_purpose := in_purpose pg;
     in_origin := in_origin pg; in_destination := in_destination pg;
     in_round_trip := in_round_trip pg;
     btn_add_disabled := btn_add_disabled pg;
     btn_add_text := btn_add_text pg;
     el_status := el_status pg; el_status_class := el_status_class pg;
     el_tbody := el_tbody pg; el_summary := el_summary pg;
     el_origin_locations := o; el_dest_locations := d;
     console := console pg |}.

(** [setStatus(msg, isError = false)] *)
Definition setStatus (msg : string) (isError : bool) (pg : Page) : Page :=
  with_status msg (if isError then "danger" else "success") pg.

Definition is_selected (sel : option Z) (loc : Location) : bool :=
  match sel with Some i => Z.eqb i (loc_id loc) | None => false end.

Definition location_button (sel : option Z) (loc : Location) : LocButton :=
  {| btn_class := "loc-btn" ++ (if is_home loc then " home" else "")
                  ++ (if is_selected sel loc then " selected" else "");
     btn_text := loc_name loc;
     btn_title := formatAddress loc |}.

(** [renderLocations] (the click handlers it installs are not part of the
    page state). *)
Definition renderLocations (pg : Page) : Page :=
  with_location_buttons
    (map (location_button (selectedOrigin pg)) (locations pg))
    (map (location_button (selectedDest pg)) (locations pg)) pg.

Section WithPlatform.

Variable P : Platform.

Definition trips_request (year : option Z) : Req :=
  {| endpoint := Trips; http := GET ("/api/trips?year=" ++ year_text year) |}.

Definition summary_request (year : option Z) : Req :=
  {| endpoint := SummaryOf;
     http := GET ("/api/summary?year=" ++ year_text year) |}.

(** The template of [loadSummary].  Reading [toLocaleString] off a missing
    estimate throws, which is [None] here. *)
Definition summary_box (year : option Z) (s : Summary) : option SummaryBox :=
  match reimbursement_estimate s with
  | None => None
  | Some r =>
      Some {| box_year := year_text year;
              box_trips := string_of_Z (trip_count s);
              box_km := toLocaleString P (total_km s) None None;
              box_amount := toLocaleString P r (Some 2%nat) None;
              box_rate := Number_toString P (rate_high s) |}
  end.

Definition loadSummary (pg : Page) : Page * Task Page :=
  let year := parseInt P (in_year pg) in
  (pg,
   Await (summary_request year) (fun (r : result Summary) pg =>
     match r with
     | Throw _ =>
         (with_console (console pg ++ ["Failed to load summary:"]) pg, Done)
     | Return s =>
         match summary_box year s with
         | Some box => (with_summary (Some box) pg, Done)
         | None =>
             (with_console (console pg ++ ["Failed to load summary:"]) pg,
              Done)
         end
     end)).

(** The row template of [loadTrips]. *)
Definition render_row (t : Trip) : Row :=
  {| row_date := trip_date t;
     row_purpose := Html.escapeHtml (Some (purpose t));
     row_origin := Html.escapeHtml (Some (origin t));
     row_destination := Html.escapeHtml (Some (destination t));
     row_badge := round_trip t;
     row_km := toFixed P (distance_km t) 1;
     row_one_way := toFixed P (one_way_km t) 1;
     row_factor := if round_trip t then "2" else "1";
     row_id := trip_id t |}.

Definition loadTrips (pg : Page) : Page * Task Page :=
  let year := parseInt P (in_year pg) in
  (pg,
   Await (trips_request year) (fun (r : result (list Trip)) pg =>
     match r with
     | Throw m => (pg, Failed m)
     | Return trips =>
         match trips with
         | [] => (with_tbody EmptyNotice pg, Done)
         | _ :: _ => (with_tbody (Rows (map render_row trips)) pg, Done)
         end
     end)).

(** [refresh]: both loaders are called, then awaited together. *)
Definition refresh (pg : Page) : Page * Task Page :=
  let pg := setStatus "" false pg in
  let (pg, trips_task) := loadTrips pg in
  let (pg, summary_task) := loadSummary pg in
  all2 trips_task summary_task
    (fun res pg =>
       match res with
       | Throw m => (setStatus m true pg, Done)
       | Return _ => (pg, Done)
       end) pg.

Definition payload (pg : Page) : json :=
  JObj [ ("trip_date", JStr (in_trip_date pg));
         ("purpose", JStr (in_purpose pg));
         ("origin", JStr (in_origin pg));
         ("destination", JStr (in_destination pg));
         ("round_trip", JBool (in_round_trip pg));
         ("travel_mode", JStr "DRIVE") ].

Definition post_request (pg : Page) : Req :=
  {| endpoint := CreateTrip;
     http := {| method := "POST"; url := "/api/trips";
                headers := [("Content-Type", "application/json")];
                body := Some (JSON_stringify P (payload pg)) |} |}.

(** The [finally] block of [addTrip]. *)
Definition addTrip_finally (pg : Page) : Page :=
  with_button false "Beregn & gem tur" pg.

Definition addTrip (pg : Page) : Page * Task Page :=
  let pg := setStatus "" false pg in
  let pg := with_button true "Beregner rute..." pg in
  (pg,
   Await (post_request pg) (fun (r : result Trip) pg =>
     match r with
     | Throw m => (addTrip_finally (setStatus m true pg), Done)
     | Return trip =>
         let pg :=
           setStatus ("Gemt: " ++ toFixed P (distance_km trip) 1 ++ " km")
                     false pg in
         let pg := renderLocations (clear_form pg) in
         let (pg, t) := refresh pg in
         await_task t (fun res pg =>
           match res with
           | Throw m => (addTrip_finally (setStatus m true pg), Done)
           | Return _ => (addTrip_finally pg, Done)
           end) pg
     end)).

End WithPlatform.

(** *** Location buttons and the loading of locations *)

Definition with_locations (l : list Location) (pg : Page) : Page :=
  {| locations := l; selectedOrigin := selectedOrigin pg;
     selectedDest := selectedDest pg; in_year := in_year pg;
     in_trip_date := in_trip_date pg; in_purpose := in_purpose pg;
     in_origin := in_origin pg; in_destination := in_destination pg;
     in_round_trip := in_round_trip pg;
     btn_add_disabled := btn_add_disabled pg;
     btn_add_text := btn_add_text pg;
     el_status := el_status pg; el_status_class := el_status_class pg;
     el_tbody := el_tbody pg; el_summary := el_summary pg;
     el_origin_locations := el_origin_locations pg;
     el_dest_locations := el_dest_locations pg; console := console pg |}.

Definition with_origin (sel : option Z) (value : string) (pg : Page) : Page :=
  {| locations := locations pg; selectedOrigin := sel;
     selectedDest := selectedDest pg; in_year := in_year pg;
     in_trip_date := in_trip_date pg; in_purpose := in_purpose pg;
     in_origin := value; in_destination := in_destination pg;
     in_round_trip := in_round_trip pg;
     btn_add_disabled := btn_add_disabled pg;
     btn_add_text := btn_add_text pg;
     el_status := el_status pg; el_status_class := el_status_class pg;
     el_tbody := el_tbody pg; el_summary := el_summary pg;
     el_origin_locations := el_origin_locations pg;
     el_dest_locations := el_dest_locations pg; console := console pg |}.

Definition with_dest (sel : option Z) (value : string) (pg : Page) : Page :=
  {| locations := locations pg; selectedOrigin := selectedOrigin pg;
     selectedDest := sel; in_year := in_year pg;
     in_trip_date := in_trip_date pg; in_purpose := in_purpose pg;
     in_origin := in_origin pg; in_destination := value;
     in_round_trip := in_round_trip pg;
     btn_add_disabled := btn_add_disabled pg;
     btn_add_text := btn_add_text pg;
     el_status := el_status pg; el_status_class := el_status_class pg;
     el_tbody := el_tbody pg; el_summary := el_summary pg;
     el_origin_locations := el_origin_locations pg;
     el_dest_locations := el_dest_locations pg; console := console pg |}.

(** [selected === loc.id ? null : loc.id] *)
Definition toggle (sel : option Z) (loc : Location) : option Z :=
  if is_selected sel loc then None else Some (loc_id loc).

(** [selected ? addr : EMPTY]: the id [0] is falsy. *)
Definition address_if (sel : option Z) (addr : string) : string :=
  match sel with
  | Some i => if Z.eqb i 0 then "" else addr
  | None => ""
  end.

(** The click handler of the origin button of [loc]. *)
Definition click_origin (loc : Location) (pg : Page) : Page :=
  let sel := toggle (selectedOrigin pg) loc in
  renderLocations (with_origin sel (address_if sel (formatAddress loc)) pg).

(** The click handler of the destination button of [loc]. *)
Definition click_dest (loc : Location) (pg : Page) : Page :=
  let sel := toggle (selectedDest pg) loc in
  renderLocations (with_dest sel (address_if sel (formatAddress loc)) pg).

(** Typing [value] into the origin input, with its [input] handler. *)
Definition input_origin (value : string) (pg : Page) : Page :=
  renderLocations (with_origin None value pg).

(** Typing [value] into the destination input, with its [input]
    handler. *)
Definition input_dest (value : string) (pg : Page) : Page :=
  renderLocations (with_dest None value pg).

Definition locations_request : HttpRequest := GET "/api/locations".

(** [loadLocations] once its request, [locations_request], is answered
    with [r]. *)
Definition loadLocations_then (r : result (list Location)) (pg : Page)
  : Page :=
  match r with
  | Throw _ => with_console (console pg ++ ["Failed to load locations:"]) pg
  | Return l =>
      let pg := renderLocations (with_locations l pg) in
      match find (fun loc => is_home loc) l with
      | Some home =>
          if negb (str_truthy (in_origin pg))
          then renderLocations
                 (with_origin (Some (loc_id home)) (formatAddress home) pg)
          else pg
      | None => pg
      end
  end.

End V1.

(** ** app.js *)

Module App.

(** The [state] object. *)
Record State : Type := mkState {
  locations : list Location;
  trips : list Trip;
  filteredTrips : list Trip;
  selectedYear : Z;
  (** the text [all] or the month of the chosen tab *)
  selectedMonth : string;
  selectedOrigin : option Z;
  selectedDest : option Z;
  searchQuery : string;
  activeFilter : string;
  isLoading : bool;
  deleteTargetId : option Z;
  editingTripId : option Z
}.

(** [yearlyRates] *)
Record Rates : Type := mkRates {
  high : float;
  low : float
}.

(** The stats bar. *)
Record Stats : Type := mkStats {
  stat_trips : string;
  stat_km : string;
  stat_amount : string;
  stat_rate : string
}.

(** One sheet row, cell by cell. *)
Record Row : Type := mkRow {
  row_classes : list string;
  row_id : Z;
  cell_date : string;
  cell_purpose : string;
  cell_from : string;
  cell_to : string;
  cell_km_one : string;
  cell_km : string;
  cell_type_class : string;
  cell_type_label : string
}.

Record Sheet : Type := mkSheet {
  sheet_body : list Row;
  empty_hidden : bool;
  loading_hidden : bool
}.

(** A month tab: its [data-month], and the classes and badge the script
    sets on it. *)
Record Tab : Type := mkTab {
  tab_month : string;
  tab_active : bool;
  tab_has_data : bool;
  tab_count : option nat
}.

(** The add/edit dialog with its form. *)
Record TripModal : Type := mkTripModal {
  backdrop_hidden : bool;
  modal_title : string;
  btn_text : string;
  btn_disabled : bool;
  spinner_hidden : bool;
  in_trip_date : string;
  in_purpose : string;
  in_origin : string;
  in_destination : string;
  in_round_trip : bool;
  preview_hidden : bool;
  preview_text : string
}.

Record EventCard : Type := mkEventCard {
  card_data : string;
  card_day : string;
  card_month : string;
  card_title : string;
  card_location : string
}.

(** The calendar dialog. *)
Record CalendarPanel : Type := mkCalendarPanel {
  cal_loading_hidden : bool;
  cal_empty_hidden : bool;
  cal_not_connected_hidden : bool;
  cal_events_hidden : bool;
  cal_events : list EventCard
}.

Record Toast : Type := mkToast {
  toast_type : string;
  toast_message : string
}.

(** Everything the script can change: its variables and the page.
    [console] keeps the label of each [console.error] call. *)
Record World : Type := mkWorld {
  state : State;
  yearlyRates : Rates;
  stats : Stats;
  sheet : Sheet;
  tabs : list Tab;
  filter_buttons : list (string * bool);
  modal : TripModal;
  calendar : CalendarPanel;
  toasts : list Toast;
  live_region : string;
  console : list string
}.

(** *** Field updates *)

Definition with_state (s : State) (w : World) : World :=
  {| state := s; yearlyRates := yearlyRates w; stats := stats w;
     sheet := sheet w; tabs := tabs w; filter_buttons := filter_buttons w;
     modal := modal w; calendar := calendar w; toasts := toasts w;
     live_region := live_region w; console := console w |}.

Definition with_rates (r : Rates) (w : World) : World :=
  {| state := state w; yearlyRates := r; stats := stats w;
     sheet := sheet w; tabs := tabs w; filter_buttons := filter_buttons w;
     modal := modal w; calendar := calendar w; toasts := toasts w;
     live_region := live_region w; console := console w |}.

Definition with_stats (s : Stats) (w : World) : World :=
  {| state := state w; yearlyRates := yearlyRates w; stats := s;
     sheet := sheet w; tabs := tabs w; filter_buttons := filter_buttons w;
     modal := modal w; calendar := calendar w; toasts := toasts w;
     live_region := live_region w; console := console w |}.

Definition with_sheet (s : Sheet) (w : World) : World :=
  {| state := state w; yearlyRates := yearlyRates w; stats := stats w;
     sheet := s; tabs := tabs w; filter_buttons := filter_buttons w;
     modal := modal w; calendar := calendar w; toasts := toasts w;
     live_region := live_region w; console := console w |}.

Definition with_tabs (t : list Tab) (w : World) : World :=
  {| state := state w; yearlyRates := yearlyRates w; stats := stats w;
     sheet := sheet w; tabs := t; filter_buttons := filter_buttons w;
     modal := modal w; calendar := calendar w; toasts := toasts w;
     live_region := live_region w; console := console w |}.

Definition with_filter_buttons (b : list (string * bool)) (w : World)
  : World :=
  {| state := state w; yearlyRates := yearlyRates w; stats := stats w;
     sheet := sheet w; tabs := tabs w; filter_buttons := b;
     modal := modal w; calendar := calendar w; toasts := toasts w;
     live_region := live_region w; console := console w |}.

Definition with_modal (m : TripModal) (w : World) : World :=
  {| state := state w; yearlyRates := yearlyRates w; stats := stats w;
     sheet := sheet w; tabs := tabs w; filter_buttons := filter_buttons w;
     modal := m; calendar := calendar w; toasts := toasts w;
     live_region := live_region w; console := console w |}.

Definition with_calendar (c : CalendarPanel) (w : World) : World :=
  {| state := state w; yearlyRates := yearlyRates w; stats := stats w;
     sheet := sheet w; tabs := tabs w; filter_buttons := filter_buttons w;
     modal := modal w; calendar := c; toasts := toasts w;
     live_region := live_region w; console := console w |}.

Definition with_toast (t : Toast) (live : string) (w : World) : World :=
  {| state := state w; yearlyRates := yearlyRates w; stats := stats w;
     sheet := sheet w; tabs := tabs w; filter_buttons := filter_buttons w;
     modal := modal w; calendar := calendar w; toasts := toasts w ++ [t];
     live_region := live; console := console w |}.

Definition with_console (l : list string) (w : World) : World :=
  {| state := state w; yearlyRates := yearlyRates w; stats := stats w;
     sheet := sheet w; tabs := tabs w; filter_buttons := filter_buttons w;
     modal := modal w; calendar := calendar w; toasts := toasts w;
     live_region := live_region w; console := l |}.

Definition set_trips (l : list Trip) (s : State) : State :=
  {| locations := locations s; trips := l; filteredTrips := filteredTrips s;
     selectedYear := selectedYear s; selectedMonth := selectedMonth s;
     selectedOrigin := selectedOrigin s; selectedDest := selectedDest s;
     searchQuery := searchQuery s; activeFilter := activeFilter s;
     isLoading := isLoading s; deleteTargetId := deleteTargetId s;
     editingTripId := editingTripId s |}.

Definition set_filteredTrips (l : list Trip) (s : State) : State :=
  {| locations := locations s; trips := trips s; filteredTrips := l;
     selectedYear := selectedYear s; selectedMonth := selectedMonth s;
     selectedOrigin := selectedOrigin s; selectedDest := selectedDest s;
     searchQuery := searchQuery s; activeFilter := activeFilter s;
     isLoading := isLoading s; deleteTargetId := deleteTargetId s;
     editingTripId := editingTripId s |}.

Definition set_selectedMonth (m : string) (s : State) : State :=
  {| locations := locations s; trips := trips s;
     filteredTrips := filteredTrips s;
     selectedYear := selectedYear s; selectedMonth := m;
     selectedOrigin := selectedOrigin s; selectedDest := selectedDest s;
     searchQuery := searchQuery s; activeFilter := activeFilter s;
     isLoading := isLoading s; deleteTargetId := deleteTargetId s;
     editingTripId := editingTripId s |}.

Definition set_searchQuery (q : string) (s : State) : State :=
  {| locations := locations s; trips := trips s;
     filteredTrips := filteredTrips s;
     selectedYear := selectedYear s; selectedMonth := selectedMonth s;
     selectedOrigin := selectedOrigin s; selectedDest := selectedDest s;
     searchQuery := q; activeFilter := activeFilter s;
     isLoading := isLoading s; deleteTargetId := deleteTargetId s;
     editingTripId := editingTripId s |}.

Definition set_activeFilter (f : string) (s : State) : State :=
  {| locations := locations s; trips := trips s;
     filteredTrips := filteredTrips s;
     selectedYear := selectedYear s; selectedMonth := selectedMonth s;
     selectedOrigin := selectedOrigin s; selectedDest := selectedDest s;
     searchQuery := searchQuery s; activeFilter := f;
     isLoading := isLoading s; deleteTargetId := deleteTargetId s;
     editingTripId := editingTripId s |}.

Definition set_isLoading (b : bool) (s : State) : State :=
  {| locations := locations s; trips := trips s;
     filteredTrips := filteredTrips s;
     selectedYear := selectedYear s; selectedMonth := selectedMonth s;
     selectedOrigin := selectedOrigin s; selectedDest := selectedDest s;
     searchQuery := searchQuery s; activeFilter := activeFilter s;
     isLoading := b; deleteTargetId := deleteTargetId s;
     editingTripId := editingTripId s |}.

(** [closeTripModal] clears the edit target and both selections. *)
Definition clear_editing (s : State) : State :=
  {| locations := locations s; trips := trips s;
     filteredTrips := filteredTrips s;
     selectedYear := selectedYear s; selectedMonth := selectedMonth s;
     selectedOrigin := None; selectedDest := None;
     searchQuery := searchQuery s; activeFilter := activeFilter s;
     isLoading := isLoading s; deleteTargetId := deleteTargetId s;
     editingTripId := None |}.

Definition set_button (disabled : bool) (label : string) (spinner : bool)
    (m : TripModal) : TripModal :=
  {| backdrop_hidden := backdrop_hidden m; modal_title := modal_title m;
     btn_text := label; btn_disabled := disabled; spinner_hidden := spinner;
     in_trip_date := in_trip_date m; in_purpose := in_purpose m;
     in_origin := in_origin m; in_destination := in_destination m;
     in_round_trip := in_round_trip m;
     preview_hidden := preview_hidden m; preview_text := preview_text m |}.

(** The dialog is hidden and the distance preview is reset. *)
Definition hide_modal (m : TripModal) : TripModal :=
  {| backdrop_hidden := true; modal_title := modal_title m;
     btn_text := btn_text m; btn_disabled := btn_disabled m;
     spinner_hidden := spinner_hidden m;
     in_trip_date := in_trip_date m; in_purpose := in_purpose m;
     in_origin := in_origin m; in_destination := in_destination m;
     in_round_trip := in_round_trip m;
     preview_hidden := true; preview_text := "--" |}.

Definition set_loading_hidden (b : bool) (s : Sheet) : Sheet :=
  {| sheet_body := sheet_body s; empty_hidden := empty_hidden s;
     loading_hidden := b |}.

Section WithPlatform.

Variable P : Platform.

(** [escapeHtml]: app.js lets the browser serialise a text node. *)
Definition escapeHtml (str : option string) : string :=
  text_to_html P (Html.or_empty str).

(** [formatNumber(num, decimals = 1)] *)
Definition formatNumber (num : float) (decimals : nat) : string :=
  toLocaleString P num (Some decimals) (Some decimals).

(** [formatDate] *)
Definition formatDate (dateStr : string) : string := Date_short P dateStr.

(** [showToast(message, type)]; the timers that dismiss a toast are left
    out. *)
Definition showToast (message type : string) (w : World) : World :=
  with_toast {| toast_type := type;
                toast_message := escapeHtml (Some message) |}
             message w.

(** *** Stats bar *)

(** [state.filteredTrips.reduce((sum, t) => sum + t.distance_km, 0)] *)
Definition totalKm (l : list Trip) : float :=
  fold_left (fun sum t => (sum + distance_km t)%float) l 0%float.

Definition threshold : float := 20000%float.

(** The variable [reimbursement] of [updateStatsDisplay]. *)
Definition reimbursement (l : list Trip) (r : Rates) : float :=
  if (totalKm l <=? threshold)%float
  then (totalKm l * high r)%float
  else (threshold * high r + (totalKm l - threshold) * low r)%float.

Definition updateStatsDisplay (w : World) : World :=
  let total := totalKm (filteredTrips (state w)) in
  let tripCount := List.length (filteredTrips (state w)) in
  with_stats
    {| stat_trips := string_of_nat tripCount;
       stat_km := formatNumber total 1;
       stat_amount :=
         formatNumber (reimbursement (filteredTrips (state w))
                                     (yearlyRates w)) 2 ++ " kr";
       stat_rate := Number_toString P (high (yearlyRates w)) ++ " kr/km" |}
    w.

Definition summary_request (year : Z) : Req :=
  {| endpoint := SummaryOf;
     http := GET ("/api/summary?year=" ++ string_of_Z year) |}.

Definition loadSummary (w : World) : World * Task World :=
  (w,
   Await (summary_request (selectedYear (state w)))
     (fun (r : result Summary) w =>
        match r with
        | Throw _ =>
            (with_console (console w ++ ["Failed to load summary:"]) w, Done)
        | Return s =>
            let w := with_rates {| high := rate_high s; low := rate_low s |}
                                w in
            (updateStatsDisplay w, Done)
        end)).

(** *** Filters *)

(** [new Date(t.trip_date).getMonth() + 1]; [None] is [NaN]. *)
Definition tripMonth (t : Trip) : option Z :=
  option_map (fun m => (m + 1)%Z) (Date_getMonth P (trip_date t)).

(** [a === b] on numbers that may be [NaN]. *)
Definition strict_eq (a b : option Z) : bool :=
  match a, b with
  | Some x, Some y => Z.eqb x y
  | _, _ => false
  end.

(** The callback of the month filter. *)
Definition month_matches (sel : string) (t : Trip) : bool :=
  strict_eq (tripMonth t) (parseInt P sel).

(** The callback of the search filter; [query] is already lower case. *)
Definition search_matches (query : string) (t : Trip) : bool :=
  includes query (toLowerCase P (purpose t))
  || includes query (toLowerCase P (origin t))
  || includes query (toLowerCase P (destination t)).

Definition applyFilters (w : World) : World :=
  let st := state w in
  let filtered := trips st in
  let filtered :=
    if negb (String.eqb (selectedMonth st) "all")
    then filter (month_matches (selectedMonth st)) filtered
    else filtered in
  let filtered :=
    if str_truthy (searchQuery st)
    then filter (search_matches (toLowerCase P (searchQuery st))) filtered
    else filtered in
  let filtered :=
    if String.eqb (activeFilter st) "round-trip"
    then filter (fun t => round_trip t) filtered
    else if String.eqb (activeFilter st) "one-way"
    then filter (fun t => negb (round_trip t)) filtered
    else filtered in
  with_state (set_filteredTrips filtered st) w.

(** *** Sheet rows *)

Definition render_row (t : Trip) : Row :=
  {| row_classes :=
       "sheet-row"
       :: (if (100 <? distance_km t)%float then ["long-distance"] else []);
     row_id := trip_id t;
     cell_date := formatDate (trip_date t);
     cell_purpose := escapeHtml (Some (purpose t));
     cell_from := escapeHtml (Some (origin t));
     cell_to := escapeHtml (Some (destination t));
     cell_km_one := formatNumber (one_way_km t) 1;
     cell_km := formatNumber (distance_km t) 1;
     cell_type_class := if round_trip t then "round-trip" else "one-way";
     cell_type_label := if round_trip t then "Tur/retur" else "Enkelt" |}.

Definition renderTrips (w : World) : World :=
  let isEmpty := Nat.eqb (List.length (filteredTrips (state w))) 0 in
  let w := updateStatsDisplay w in
  let loading := isLoading (state w) in
  let rows :=
    if isEmpty || loading then []
    else map render_row (filteredTrips (state w)) in
  with_sheet {| sheet_body := rows;
                empty_hidden := negb isEmpty || loading;
                loading_hidden := negb loading |} w.

Definition setLoading (b : bool) (w : World) : World :=
  with_sheet (set_loading_hidden (negb b) (sheet w))
             (with_state (set_isLoading b (state w)) w).

(** [monthCounts[k] || 0] for the key of a tab: the trips whose month is
    that key ([NaN] is a key like any other). *)
Definition month_key_eq (a b : option Z) : bool :=
  match a, b with
  | Some x, Some y => Z.eqb x y
  | None, None => true
  | _, _ => false
  end.

Definition month_count (l : list Trip) (key : option Z) : nat :=
  List.length (filter (fun t => month_key_eq (tripMonth t) key) l).

Definition update_tab (l : list Trip) (tab : Tab) : Tab :=
  if String.eqb (tab_month tab) "all"
  then {| tab_month := tab_month tab; tab_active := tab_active tab;
          tab_has_data := Nat.ltb 0 (List.length l);
          tab_count := if Nat.ltb 0 (List.length l)
                       then Some (List.length l) else None |}
  else {| tab_month := tab_month tab; tab_active := tab_active tab;
          tab_has_data :=
            Nat.ltb 0 (month_count l (parseInt P (tab_month tab)));
          tab_count := tab_count tab |}.

Definition updateMonthTabIndicators (w : World) : World :=
  with_tabs (map (update_tab (trips (state w))) (tabs w)) w.

Definition trips_request (year : Z) : Req :=
  {| endpoint := Trips;
     http := GET ("/api/trips?year=" ++ string_of_Z year) |}.

Definition loadTrips (w : World) : World * Task World :=
  let w := setLoading true w in
  (w,
   Await (trips_request (selectedYear (state w)))
     (fun (r : result (list Trip)) w =>
        match r with
        | Throw m => (setLoading false (showToast m "error" w), Done)
        | Return l =>
            let w := with_state (set_trips l (state w)) w in
            let w := applyFilters w in
            let w := renderTrips w in
            let w := updateMonthTabIndicators w in
            (setLoading false w, Done)
        end)).

(** [refresh]: both loaders are called, then awaited together. *)
Definition refresh (w : World) : World * Task World :=
  let (w, trips_task) := loadTrips w in
  let (w, summary_task) := loadSummary w in
  all2 trips_task summary_task
    (fun res w =>
       match res with
       | Throw m => (w, Failed m)
       | Return _ => (w, Done)
       end) w.

(** *** Search, type filter and month tabs *)

Definition handleSearch (query : string) (w : World) : World :=
  renderTrips (applyFilters (with_state (set_searchQuery query (state w)) w)).

Definition handleFilterClick (f : string) (w : World) : World :=
  let w := with_state (set_activeFilter f (state w)) w in
  let w := with_filter_buttons
             (map (fun b => (fst b, String.eqb (fst b) f))
                  (filter_buttons w)) w in
  renderTrips (applyFilters w).

Definition selectMonth (month : string) (w : World) : World :=
  let w := with_state (set_selectedMonth month (state w)) w in
  let w := with_tabs
             (map (fun tab =>
                     {| tab_month := tab_month tab;
                        tab_active := String.eqb (tab_month tab) month;
                        tab_has_data := tab_has_data tab;
                        tab_count := tab_count tab |}) (tabs w)) w in
  renderTrips (applyFilters w).

(** *** Add and edit *)

(** [if (state.editingTripId)]: [null] and the id [0] are falsy. *)
Definition editing (st : State) : bool :=
  match editingTripId st with
  | Some i => negb (Z.eqb i 0)
  | None => false
  end.

Definition closeTripModal (w : World) : World :=
  with_modal (hide_modal (modal w))
             (with_state (clear_editing (state w)) w).

(** The body of the edit request. *)
Definition patch_payload (m : TripModal) : json :=
  JObj [ ("trip_date", JStr (in_trip_date m));
         ("purpose", JStr (in_purpose m)) ].

(** The body of the create request. *)
Definition post_payload (m : TripModal) : json :=
  JObj [ ("trip_date", JStr (in_trip_date m));
         ("purpose", JStr (in_purpose m));
         ("origin", JStr (in_origin m));
         ("destination", JStr (in_destination m));
         ("round_trip", JBool (in_round_trip m));
         ("travel_mode", JStr "DRIVE") ].

Definition id_text (i : option Z) : string :=
  match i with Some z => string_of_Z z | None => "null" end.

Definition patch_request (w : World) : Req :=
  {| endpoint := UpdateTrip;
     http := {| method := "PATCH";
                url := "/api/trips/" ++ id_text (editingTripId (state w));
                headers := [("Content-Type", "application/json")];
                body := Some (JSON_stringify P (patch_payload (modal w))) |} |}.

Definition post_request (w : World) : Req :=
  {| endpoint := CreateTrip;
     http := {| method := "POST"; url := "/api/trips";
                headers := [("Content-Type", "application/json")];
                body := Some (JSON_stringify P (post_payload (modal w))) |} |}.

(** The [finally] block of [handleTripFormSubmit]. *)
Definition submit_finally (w : World) : World :=
  with_modal
    (set_button false
       (if editing (state w) then "Gem ændringer" else "Gem tur")
       true (modal w)) w.

(** What follows the reply inside the [try] block: the dialog is closed and
    the lists are reloaded. *)
Definition submit_then_refresh (w : World) : World * Task World :=
  let w := closeTripModal w in
  let (w, t) := refresh w in
  await_task t
    (fun res w =>
       match res with
       | Throw m => (submit_finally (showToast m "error" w), Done)
       | Return _ => (submit_finally w, Done)
       end) w.

Definition handleTripFormSubmit (w : World) : World * Task World :=
  let w := with_modal
             (set_button true
                (if editing (state w) then "Gemmer..." else "Beregner rute...")
                false (modal w)) w in
  if editing (state w)
  then
    (w,
     Await (patch_request w) (fun (r : result unit) w =>
       match r with
       | Throw m => (submit_finally (showToast m "error" w), Done)
       | Return _ =>
           submit_then_refresh (showToast "Tur opdateret" "success" w)
       end))
  else
    (w,
     Await (post_request w) (fun (r : result Trip) w =>
       match r with
       | Throw m => (submit_finally (showToast m "error" w), Done)
       | Return trip =>
           submit_then_refresh
             (showToast ("Gemt: " ++ formatNumber (distance_km trip) 1
                         ++ " km") "success" w)
       end)).

(** *** Calendar *)

Definition monthNames : list string :=
  ["jan"; "feb"; "mar"; "apr"; "maj"; "jun";
   "jul"; "aug"; "sep"; "okt"; "nov"; "dec"].

Definition event_json (e : CalendarEvent) : json :=
  JObj [ ("date", JStr (ev_date e)); ("title", JStr (ev_title e));
         ("location", JStr (ev_location e)) ].

Definition render_event (e : CalendarEvent) : EventCard :=
  {| card_data :=
       Html.replace_class (fun c => Ascii.eqb c "'") (fun _ => Some "&#39;")
         (JSON_stringify P (event_json e));
     card_day := year_text (Date_getDate P (ev_date e));
     card_month :=
       match Date_getMonth P (ev_date e) with
       | Some m => nth (Z.to_nat m) monthNames "undefined"
       | None => "undefined"
       end;
     card_title := escapeHtml (Some (ev_title e));
     card_location := escapeHtml (Some (ev_location e)) |}.

Definition calendar_request : Req :=
  {| endpoint := Calendar; http := GET "/api/calendar/events" |}.

(** [e.message.includes('not configured') || e.message.includes('501')] *)
Definition not_configured (message : string) : bool :=
  includes "not configured" message || includes "501" message.

(** The [catch] block of [loadCalendarEvents]. *)
Definition calendar_catch (message : string) (w : World) : World :=
  let w := with_calendar
             {| cal_loading_hidden := true;
                cal_empty_hidden := cal_empty_hidden (calendar w);
                cal_not_connected_hidden :=
                  cal_not_connected_hidden (calendar w);
                cal_events_hidden := cal_events_hidden (calendar w);
                cal_events := cal_events (calendar w) |} w in
  let w := if not_configured message then w
           else showToast message "error" w in
  with_calendar
    {| cal_loading_hidden := cal_loading_hidden (calendar w);
       cal_empty_hidden := cal_empty_hidden (calendar w);
       cal_not_connected_hidden := false;
       cal_events_hidden := cal_events_hidden (calendar w);
       cal_events := cal_events (calendar w) |} w.

Definition loadCalendarEvents (w : World) : World * Task World :=
  let w := with_calendar
             {| cal_loading_hidden := false; cal_empty_hidden := true;
                cal_not_connected_hidden := true; cal_events_hidden := true;
                cal_events := cal_events (calendar w) |} w in
  (w,
   Await calendar_request
     (fun (r : result (option (list CalendarEvent))) w =>
        match r with
        | Throw m => (calendar_catch m w, Done)
        | Return events =>
            let c := calendar w in
            match events with
            | None | Some [] =>
                (with_calendar
                   {| cal_loading_hidden := true; cal_empty_hidden := false;
                      cal_not_connected_hidden := cal_not_connected_hidden c;
                      cal_events_hidden := cal_events_hidden c;
                      cal_events := cal_events c |} w, Done)
            | Some evs =>
                (with_calendar
                   {| cal_loading_hidden := true;
                      cal_empty_hidden := cal_empty_hidden c;
                      cal_not_connected_hidden := cal_not_connected_hidden c;
                      cal_events_hidden := false;
                      cal_events := map render_event evs |} w, Done)
            end
        end)).

End WithPlatform.

(** *** The dialogs, the year and the location chips

    The parts of the page that the functions above do not touch. *)

(** One location chip of the trip dialog. *)
Record Chip : Type := mkChip {
  chip_classes : list string;
  chip_id : Z;
  chip_address : string;
  chip_title : string;
  chip_pressed : bool;
  chip_label : string
}.

(** The world of [World] together with the rest of the page.
    [location_href] is the address [window.location.href] was last set
    to, if it was. *)
Record Shell : Type := mkShell {
  app : World;
  origin_chips : list Chip;
  dest_chips : list Chip;
  delete_backdrop_hidden : bool;
  calendar_backdrop_hidden : bool;
  year_display : string;
  current_year_label : string;
  location_href : option string
}.

Definition with_app (w : World) (s : Shell) : Shell :=
  {| app := w; origin_chips := origin_chips s; dest_chips := dest_chips s;
     delete_backdrop_hidden := delete_backdrop_hidden s;
     calendar_backdrop_hidden := calendar_backdrop_hidden s;
     year_display := year_display s;
     current_year_label := current_year_label s;
     location_href := location_href s |}.

Definition with_chips (o d : list Chip) (s : Shell) : Shell :=
  {| app := app s; origin_chips := o; dest_chips := d;
     delete_backdrop_hidden := delete_backdrop_hidden s;
     calendar_backdrop_hidden := calendar_backdrop_hidden s;
     year_display := year_display s;
     current_year_label := current_year_label s;
     location_href := location_href s |}.

Definition with_delete_backdrop (hidden : bool) (s : Shell) : Shell :=
  {| app := app s; origin_chips := origin_chips s;
     dest_chips := dest_chips s;
     delete_backdrop_hidden := hidden;
     calendar_backdrop_hidden := calendar_backdrop_hidden s;
     year_display := year_display s;
     current_year_label := current_year_label s;
     location_href := location_href s |}.

Definition with_calendar_backdrop (hidden : bool) (s : Shell) : Shell :=
  {| app := app s; origin_chips := origin_chips s;
     dest_chips := dest_chips s;
     delete_backdrop_hidden := delete_backdrop_hidden s;
     calendar_backdrop_hidden := hidden;
     year_display := year_display s;
     current_year_label := current_year_label s;
     location_href := location_href s |}.

Definition with_year_labels (a b : string) (s : Shell) : Shell :=
  {| app := app s; origin_chips := origin_chips s;
     dest_chips := dest_chips s;
     delete_backdrop_hidden := delete_backdrop_hidden s;
     calendar_backdrop_hidden := calendar_backdrop_hidden s;
     year_display := a; current_year_label := b;
     location_href := location_href s |}.

Definition with_href (u : string) (s : Shell) : Shell :=
  {| app := app s; origin_chips := origin_chips s;
     dest_chips := dest_chips s;
     delete_backdrop_hidden := delete_backdrop_hidden s;
     calendar_backdrop_hidden := calendar_backdrop_hidden s;
     year_display := year_display s;
     current_year_label := current_year_label s;
     location_href := Some u |}.

Definition set_locations (l : list Location) (s : State) : State :=
  {| locations := l; trips := trips s; filteredTrips := filteredTrips s;
     selectedYear := selectedYear s; selectedMonth := selectedMonth s;
     selectedOrigin := selectedOrigin s; selectedDest := selectedDest s;
     searchQuery := searchQuery s; activeFilter := activeFilter s;
     isLoading := isLoading s; deleteTargetId := deleteTargetId s;
     editingTripId := editingTripId s |}.

Definition set_selectedYear (y : Z) (s : State) : State :=
  {| locations := locations s; trips := trips s;
     filteredTrips := filteredTrips s;
     selectedYear := y; selectedMonth := selectedMonth s;
     selectedOrigin := selectedOrigin s; selectedDest := selectedDest s;
     searchQuery := searchQuery s; activeFilter := activeFilter s;
     isLoading := isLoading s; deleteTargetId := deleteTargetId s;
     editingTripId := editingTripId s |}.

Definition set_selectedOrigin (o : option Z) (s : State) : State :=
  {| locations := locations s; trips := trips s;
     filteredTrips := filteredTrips s;
     selectedYear := selectedYear s; selectedMonth := selectedMonth s;
     selectedOrigin := o; selectedDest := selectedDest s;
     searchQuery := searchQuery s; activeFilter := activeFilter s;
     isLoading := isLoading s; deleteTargetId := deleteTargetId s;
     editingTripId := editingTripId s |}.

Definition set_deleteTargetId (i : option Z) (s : State) : State :=
  {| locations := locations s; trips := trips s;
     filteredTrips := filteredTrips s;
     selectedYear := selectedYear s; selectedMonth := selectedMonth s;
     selectedOrigin := selectedOrigin s; selectedDest := selectedDest s;
     searchQuery := searchQuery s; activeFilter := activeFilter s;
     isLoading := isLoading s; deleteTargetId := i;
     editingTripId := editingTripId s |}.

Definition set_editingTripId (i : option Z) (s : State) : State :=
  {| locations := locations s; trips := trips s;
     filteredTrips := filteredTrips s;
     selectedYear := selectedYear s; selectedMonth := selectedMonth s;
     selectedOrigin := selectedOrigin s; selectedDest := selectedDest s;
     searchQuery := searchQuery s; activeFilter := activeFilter s;
     isLoading := isLoading s; deleteTargetId := deleteTargetId s;
     editingTripId := i |}.

(** The dialog with its title, button label and form filled in. *)
Definition fill_modal (title label date purp orig dest : string) (rt : bool)
    (m : TripModal) : TripModal :=
  {| backdrop_hidden := backdrop_hidden m; modal_title := title;
     btn_text := label; btn_disabled := btn_disabled m;
     spinner_hidden := spinner_hidden m;
     in_trip_date := date; in_purpose := purp;
     in_origin := orig; in_destination := dest; in_round_trip := rt;
     preview_hidden := preview_hidden m; preview_text := preview_text m |}.

(** The dialog is shown. *)
Definition show_modal (m : TripModal) : TripModal :=
  {| backdrop_hidden := false; modal_title := modal_title m;
     btn_text := btn_text m; btn_disabled := btn_disabled m;
     spinner_hidden := spinner_hidden m;
     in_trip_date := in_trip_date m; in_purpose := in_purpose m;
     in_origin := in_origin m; in_destination := in_destination m;
     in_round_trip := in_round_trip m;
     preview_hidden := preview_hidden m; preview_text := preview_text m |}.

(** [if (id)] for a record id that may be [null]. *)
Definition id_truthy (i : option Z) : bool :=
  match i with Some z => negb (Z.eqb z 0) | None => false end.

(** [selectedId === loc.id] *)
Definition is_selected (sel : option Z) (loc : Location) : bool :=
  match sel with Some i => Z.eqb i (loc_id loc) | None => false end.

Section Dialogs.

Variable P : Platform.

(** The markup of one chip in [renderLocationChips]. *)
Definition render_chip (sel : option Z) (loc : Location) : Chip :=
  {| chip_classes :=
       "location-chip"
       :: (if is_home loc then ["home"] else [])
       ++ (if is_selected sel loc then ["selected"] else []);
     chip_id := loc_id loc;
     chip_address := escapeHtml P (Some (formatAddress loc));
     chip_title := escapeHtml P (Some (formatAddress loc));
     chip_pressed := is_selected sel loc;
     chip_label := escapeHtml P (Some (loc_name loc)) |}.

(** [renderLocations] (the click handlers it installs are not part of the
    page state). *)
Definition renderLocations (s : Shell) : Shell :=
  with_chips
    (map (render_chip (selectedOrigin (state (app s))))
         (locations (state (app s))))
    (map (render_chip (selectedDest (state (app s))))
         (locations (state (app s)))) s.

(** [openTripModal(tripId = null)]; [today] is the value of
    [todayISO()]. *)
Definition openTripModal (today : string) (tripId : option Z) (s : Shell)
  : Shell :=
  let w := app s in
  let w := with_state (set_editingTripId tripId (state w)) w in
  let shown (w : World) : Shell :=
    let s := renderLocations (with_app w s) in
    with_app (with_modal (show_modal (modal (app s))) (app s)) s in
  if id_truthy tripId then
    match find (fun t => match tripId with
                         | Some i => Z.eqb (trip_id t) i
                         | None => false
                         end) (trips (state w)) with
    | None => with_app w s
    | Some trip =>
        shown (with_modal
                 (fill_modal "Rediger tur" "Gem ændringer"
                    (trip_date trip) (purpose trip) (origin trip)
                    (destination trip) (round_trip trip) (modal w)) w)
    end
  else
    match find (fun l => is_home l) (locations (state w)) with
    | Some home =>
        shown (with_modal
                 (fill_modal "Tilføj tur" "Gem tur" today ""
                    (formatAddress home) "" true (modal w))
                 (with_state
                    (set_selectedOrigin (Some (loc_id home)) (state w)) w))
    | None =>
        shown (with_modal
                 (fill_modal "Tilføj tur" "Gem tur" today "" "" "" true
                    (modal w)) w)
    end.

(** [closeTripModal], [handleTripFormSubmit], [refresh] and
    [loadCalendarEvents] from the larger world. *)
Definition closeTripModal' (s : Shell) : Shell :=
  with_app (closeTripModal (app s)) s.

Definition showDeleteModal (tripId : Z) (s : Shell) : Shell :=
  with_delete_backdrop false
    (with_app (with_state (set_deleteTargetId (Some tripId) (state (app s)))
                          (app s)) s).

Definition hideDeleteModal (s : Shell) : Shell :=
  with_app (with_state (set_deleteTargetId None (state (app s))) (app s))
           (with_delete_backdrop true s).

Definition delete_request (i : option Z) : Req :=
  {| endpoint := DeleteTrip;
     http := {| method := "DELETE"; url := "/api/trips/" ++ id_text i;
                headers := []; body := None |} |}.

Definition confirmDelete (s : Shell) : Shell * Task Shell :=
  if negb (id_truthy (deleteTargetId (state (app s)))) then (s, Done)
  else
    (s,
     Await (delete_request (deleteTargetId (state (app s))))
       (fun (r : result unit) s =>
          match r with
          | Throw m => (with_app (showToast P m "error" (app s)) s, Done)
          | Return _ =>
              let s := with_app (showToast P "Tur slettet" "success" (app s))
                                s in
              let s := hideDeleteModal s in
              let (s, t) := lift app with_app (refresh P) s in
              await_task t
                (fun res s =>
                   match res with
                   | Throw m =>
                       (with_app (showToast P m "error" (app s)) s, Done)
                   | Return _ => (s, Done)
                   end) s
          end)).

(** *** Year navigation *)

Definition updateYearDisplay (s : Shell) : Shell :=
  with_year_labels (string_of_Z (selectedYear (state (app s))))
                   (string_of_Z (selectedYear (state (app s)))) s.

(** [selectYear]: the promise of [refresh] is not awaited. *)
Definition selectYear (year : Z) (s : Shell) : Shell * Task Shell :=
  let s := with_app (with_state (set_selectedYear year (state (app s)))
                                (app s)) s in
  let s := updateYearDisplay s in
  lift app with_app (refresh P) s.

Definition prevYear (s : Shell) : Shell * Task Shell :=
  selectYear (selectedYear (state (app s)) - 1) s.

Definition nextYear (s : Shell) : Shell * Task Shell :=
  selectYear (selectedYear (state (app s)) + 1) s.

(** *** Export *)

Definition exportCSV (s : Shell) : Shell :=
  with_href ("/api/export.csv?year="
             ++ string_of_Z (selectedYear (state (app s)))) s.

(** *** Locations *)

Definition locations_request : HttpRequest := GET "/api/locations".

(** [loadLocations] once its request, [locations_request], is answered
    with [r]. *)
Definition loadLocations_then (r : result (list Location)) (w : World)
  : World :=
  match r with
  | Return l => with_state (set_locations l (state w)) w
  | Throw _ => with_console (console w ++ ["Failed to load locations:"]) w
  end.

(** *** Calendar dialog *)

(** [openCalendarModal]: the promise of [loadCalendarEvents] is not
    awaited. *)
Definition openCalendarModal (s : Shell) : Shell * Task Shell :=
  lift app with_app (loadCalendarEvents P) (with_calendar_backdrop false s).

Definition closeCalendarModal (s : Shell) : Shell :=
  with_calendar_backdrop true s.

(** The [dataset] of an add button in the calendar dialog. *)
Record EventData : Type := mkEventData {
  data_date : string;
  data_title : string;
  data_location : string
}.

Definition addTripFromEvent (today : string) (e : EventData) (s : Shell)
  : Shell :=
  let s := closeCalendarModal s in
  let s := openTripModal today None s in
  let m := modal (app s) in
  let s := with_app
             (with_modal
                (fill_modal (modal_title m) (btn_text m) (data_date e)
                   (data_title e) (in_origin m) (data_location e)
                   (in_round_trip m) m) (app s)) s in
  with_app (showToast P "Udfyld startadresse og gem turen" "info" (app s)) s.

(** *** Keyboard *)

Record KeyEvent : Type := mkKeyEvent {
  ctrlKey : bool;
  metaKey : bool;
  key : string
}.

Definition handleKeyboardShortcuts (today : string) (e : KeyEvent)
    (s : Shell) : Shell :=
  let s := if (ctrlKey e || metaKey e) && String.eqb (key e) "n"
           then openTripModal today None s else s in
  let s := if (ctrlKey e || metaKey e) && String.eqb (key e) "e"
           then exportCSV s else s in
  if String.eqb (key e) "Escape" then
    let s := if negb (delete_backdrop_hidden s) then hideDeleteModal s
             else s in
    let s := if negb (backdrop_hidden (modal (app s))) then closeTripModal' s
             else s in
    if negb (calendar_backdrop_hidden s) then closeCalendarModal s else s
  else s.

End Dialogs.

End App.

(** ** A concrete platform and concrete data

    The functions below agree with the browser on the inputs used in the
    examples: ASCII text without control characters, unsigned decimal
    numerals, ISO dates [YYYY-MM-DD], and finite numbers below [10^21] whose
    shortest decimal form has at most fifteen fraction digits.  The parser
    knows two bodies only, and the short date format is not reproduced. *)

Module Sample.

Definition lower_char (c : ascii) : ascii :=
  let n := nat_of_ascii c in
  if Nat.leb 65 n && Nat.leb n 90 then ascii_of_nat (n + 32) else c.

Fixpoint lower (s : string) : string :=
  match s with
  | EmptyString => EmptyString
  | String c s' => String (lower_char c) (lower s')
  end.

Definition digit (c : ascii) : option Z :=
  let n := nat_of_ascii c in
  if Nat.leb 48 n && Nat.leb n 57 then Some (Z.of_nat (n - 48)) else None.

(** The longest prefix of digits, read in base ten. *)
Fixpoint digits (acc : option Z) (s : string) : option Z :=
  match s with
  | EmptyString => acc
  | String c s' =>
      match digit c with
      | Some d =>
          digits (Some (10 * match acc with Some a => a | None => 0 end + d)%Z)
                 s'
      | None => acc
      end
  end.

Definition parse_int (s : string) : option Z := digits None s.

(** The month index of an ISO date, counted from zero. *)
Definition month_index (s : string) : option Z :=
  match parse_int (substring 5 2 s) with
  | Some m => if (1 <=? m)%Z && (m <=? 12)%Z then Some (m - 1)%Z else None
  | None => None
  end.

Definition day_of_month (s : string) : option Z :=
  parse_int (substring 8 2 s).

(** *** Numbers in decimal *)

(** [round(|x| * 10^d)], a tie going to the larger magnitude, computed
    exactly from the mantissa and exponent of [x]; with the sign bit. *)
Definition scaled (x : float) (d : nat) : option (bool * Z) :=
  match Prim2SF x with
  | SpecFloat.S754_zero s => Some (s, 0%Z)
  | SpecFloat.S754_finite s m e =>
      let num := (Zpos m * 10 ^ Z.of_nat d)%Z in
      if (0 <=? e)%Z then Some (s, (num * 2 ^ e)%Z)
      else let den := (2 ^ (- e))%Z in
           Some (s, ((2 * num + den) / (2 * den))%Z)
  | _ => None
  end.

Fixpoint rev_onto (s acc : string) : string :=
  match s with
  | EmptyString => acc
  | String c s' => rev_onto s' (String c acc)
  end.

Definition reverse (s : string) : string := rev_onto s "".

(** Groups of three digits, separated by [sep], on reversed digits. *)
Fixpoint group_rev (n : nat) (sep : string) (rev_digits : string) : string :=
  match rev_digits with
  | EmptyString => EmptyString
  | String c rest =>
      match n with
      | O => (sep ++ String c (group_rev 2 sep rest))%string
      | S n' => String c (group_rev n' sep rest)
      end
  end.

Definition grouped (sep : string) (ds : string) : string :=
  reverse (group_rev 3 sep (reverse ds)).

(** The [d] fraction digits of the scaled integer [n]. *)
Definition fraction_digits (n : Z) (d : nat) : string :=
  match string_of_Z (10 ^ Z.of_nat d + n mod 10 ^ Z.of_nat d)%Z with
  | String _ rest => rest
  | EmptyString => EmptyString
  end.

(** Trailing zeros are dropped down to [keep] digits, on reversed digits. *)
Fixpoint strip_zeros_rev (keep : nat) (rev_frac : string) : string :=
  match rev_frac with
  | String c rest =>
      if Ascii.eqb c "0" && Nat.ltb keep (String.length rev_frac)
      then strip_zeros_rev keep rest
      else rev_frac
  | EmptyString => EmptyString
  end.

Definition sign_text (x : float) : string :=
  if (x <? 0)%float then "-" else "".

(** [x.toFixed(d)] *)
Definition to_fixed (x : float) (d : nat) : string :=
  match scaled x d with
  | None => if PrimFloat.is_nan x then "NaN"
            else (sign_text x ++ "Infinity")%string
  | Some (_, n) =>
      (sign_text x ++ string_of_Z (n / 10 ^ Z.of_nat d)
       ++ match d with O => "" | S _ => "." ++ fraction_digits n d end)%string
  end.

(** Danish number format: a dot between groups of three digits, a comma
    before the fraction; by default no fraction digit is required and at
    most three are shown. *)
Definition to_locale (x : float) (min max : option nat) : string :=
  let mn := match min with Some m => m | None => O end in
  let mx := match max with Some m => m | None => Nat.max mn 3 end in
  match scaled x mx with
  | None => if PrimFloat.is_nan x then "NaN"
            else (sign_text x ++ "Infinity")%string
  | Some (_, n) =>
      let frac :=
        reverse (strip_zeros_rev mn (reverse (fraction_digits n mx))) in
      (sign_text x ++ grouped "." (string_of_Z (n / 10 ^ Z.of_nat mx))
       ++ match frac with EmptyString => "" | _ => "," ++ frac end)%string
  end.

Definition float_of_Z (z : Z) : float :=
  PrimFloat.of_uint63 (Uint63.of_Z z).

(** The least number of fraction digits with which [x] reads back. *)
Fixpoint shortest (x : float) (k fuel : nat) : option nat :=
  match fuel with
  | O => None
  | S fuel' =>
      match scaled x k with
      | Some (_, n) =>
          if (float_of_Z n / float_of_Z (10 ^ Z.of_nat k)
              =? PrimFloat.abs x)%float
          then Some k
          else shortest x (S k) fuel'
      | None => None
      end
  end.

(** [String(x)] *)
Definition number_to_string (x : float) : string :=
  match shortest x 0 16 with
  | Some k => to_fixed x k
  | None => to_fixed x 17
  end.

(** *** JSON *)

(** [s] between double quotes. *)
Definition quoted (s : string) : string :=
  String dquote (s ++ String dquote "").

(** The backslash character (code 92). *)
Definition backslash : ascii := Ascii.ascii_of_nat 92.

(** A string literal of JSON: double quote and backslash are escaped. *)
Definition json_string (s : string) : string :=
  quoted
    (Html.replace_class
       (fun c => Ascii.eqb c dquote || Ascii.eqb c backslash)
       (fun m => Some (String backslash m)) s).

(** [JSON.stringify] without indentation. *)
Fixpoint stringify (v : json) : string :=
  match v with
  | JNull => "null"
  | JBool true => "true"
  | JBool false => "false"
  | JNum x => if PrimFloat.is_nan x || PrimFloat.is_infinity x then "null"
              else number_to_string x
  | JStr s => json_string s
  | JArr l => "[" ++ join "," (map stringify l) ++ "]"
  | JObj props =>
      "{" ++ join ","
               (map (fun kv => json_string (fst kv) ++ ":"
                               ++ stringify (snd kv))%string props)
      ++ "}"
  end.

(** The body of an error reply whose [detail] is the empty string:
    an object with the one property [detail]. *)
Definition empty_detail_body : string :=
  stringify (JObj [("detail", JStr "")]).

(** The body of a validation error: [detail] is an array holding one
    object with the property [msg]. *)
Definition validation_body : string :=
  stringify (JObj [("detail", JArr [JObj [("msg", JStr "field required")]])]).

(** The body of the reply of a calendar that is not set up. *)
Definition not_configured_body : string :=
  stringify (JObj [("detail", JStr "Calendar not configured")]).

(** The body of an error reply whose [detail] is an object with a property
    [toString] of its own. *)
Definition own_toString_body : string :=
  stringify (JObj [("detail", JObj [("toString", JStr "x")])]).

(** The values whose serialisations the sample parser reads back. *)
Definition known_values : list json :=
  [ JObj [("detail", JStr "")];
    JObj [("detail", JArr [JObj [("msg", JStr "field required")]])];
    JObj [("detail", JStr "Calendar not configured")];
    JObj [("detail", JObj [("toString", JStr "x")])] ].

(** A parser that reads back the serialisations of [known_values] and
    nothing else. *)
Definition parse (s : string) : option json :=
  find (fun v => String.eqb s (stringify v)) known_values.

(** The message of the [TypeError] of a failed conversion, in V8. *)
Definition conversion_error : string :=
  "Cannot convert object to primitive value".

(** The serialisation of a text node: ampersand, less-than and
    greater-than become entities. *)
Definition text_node_html (s : string) : string :=
  Html.replace_class
    (fun c => Ascii.eqb c "&" || Ascii.eqb c "<" || Ascii.eqb c ">")
    (fun m => assoc m Html.entities) s.

Definition platform : Platform :=
  {| JSON_parse := parse;
     JSON_stringify := stringify;
     Number_toString := number_to_string;
     toFixed := to_fixed;
     toLocaleString := to_locale;
     toLowerCase := lower;
     parseInt := parse_int;
     Date_getMonth := month_index;
     Date_getDate := day_of_month;
     Date_short := fun s => s;
     text_to_html := text_node_html |}.

Definition trip_copenhagen : Trip :=
  {| trip_id := 1; trip_date := "2024-03-05"; purpose := "Copenhagen";
     origin := "Home"; destination := "Office"; round_trip := true;
     distance_km := 10%float; distance_one_way_km := Some 5%float |}.

Definition trip_long : Trip :=
  {| trip_id := 2; trip_date := "2024-04-01"; purpose := "Tour";
     origin := "Home"; destination := "Skagen"; round_trip := false;
     distance_km := 25000%float; distance_one_way_km := None |}.

Definition summary : Summary :=
  {| trip_count := 1; total_km := 10%float;
     reimbursement_estimate := Some 1000%float;
     rate_high := 3.94%float; rate_low := 2.28%float |}.

Definition app_state : App.State :=
  {| App.locations := []; App.trips := [trip_copenhagen];
     App.filteredTrips := [trip_copenhagen];
     App.selectedYear := 2024; App.selectedMonth := "all";
     App.selectedOrigin := None; App.selectedDest := None;
     App.searchQuery := ""; App.activeFilter := "all";
     App.isLoading := false; App.deleteTargetId := None;
     App.editingTripId := None |}.

Definition app_modal : App.TripModal :=
  {| App.backdrop_hidden := false; App.modal_title := "Rediger tur";
     App.btn_text := "Gem tur"; App.btn_disabled := false;
     App.spinner_hidden := true;
     App.in_trip_date := "2024-03-05"; App.in_purpose := "Copenhagen";
     App.in_origin := "Home"; App.in_destination := "Office";
     App.in_round_trip := true;
     App.preview_hidden := true; App.preview_text := "--" |}.

Definition app_world : App.World :=
  {| App.state := app_state;
     App.yearlyRates := {| App.high := 3.94%float; App.low := 2.28%float |};
     App.stats := {| App.stat_trips := ""; App.stat_km := "";
                     App.stat_amount := ""; App.stat_rate := "" |};
     App.sheet := {| App.sheet_body := []; App.empty_hidden := true;
                     App.loading_hidden := true |};
     App.tabs := []; App.filter_buttons := [];
     App.modal := app_modal;
     App.calendar := {| App.cal_loading_hidden := true;
                        App.cal_empty_hidden := true;
                        App.cal_not_connected_hidden := true;
                        App.cal_events_hidden := true;
                        App.cal_events := [] |};
     App.toasts := []; App.live_region := ""; App.console := [] |}.

(** The same world with the long trip in the filtered list. *)
Definition app_world_long : App.World :=
  App.with_state (App.set_filteredTrips [trip_long] app_state) app_world.

(** The same world while trip 7 is being edited. *)
Definition app_world_editing : App.World :=
  App.with_state
    {| App.locations := []; App.trips := [trip_copenhagen];
       App.filteredTrips := [trip_copenhagen];
       App.selectedYear := 2024; App.selectedMonth := "all";
       App.selectedOrigin := None; App.selectedDest := None;
       App.searchQuery := ""; App.activeFilter := "all";
       App.isLoading := false; App.deleteTargetId := None;
       App.editingTripId := Some 7%Z |} app_world.

(** The same world with the search box holding [copenhagen]. *)
Definition app_world_search : App.World :=
  App.with_state (App.set_searchQuery "copenhagen" app_state) app_world.

Definition v0_page : V0.Page :=
  {| V0.in_year := "2024"; V0.in_trip_date := "2024-03-05";
     V0.in_purpose := "Copenhagen"; V0.in_origin := "Home";
     V0.in_destination := "Office"; V0.in_round_trip := true;
     V0.in_travel_mode := "DRIVE";
     V0.el_status := ""; V0.el_error := ""; V0.el_tbody := [];
     V0.el_summary := "" |}.

(** The page of the second version before anything is loaded. *)
Definition v1_page : V1.Page :=
  {| V1.locations := []; V1.selectedOrigin := None; V1.selectedDest := None;
     V1.in_year := "2024"; V1.in_trip_date := "2024-03-05";
     V1.in_purpose := "Copenhagen"; V1.in_origin := "Home";
     V1.in_destination := "Office"; V1.in_round_trip := true;
     V1.btn_add_disabled := false; V1.btn_add_text := "Beregn & gem tur";
     V1.el_status := ""; V1.el_status_class := "";
     V1.el_tbody := V1.Rows []; V1.el_summary := None;
     V1.el_origin_locations := []; V1.el_dest_locations := [];
     V1.console := [] |}.

(** The page of app.js around [app_world], with no dialog open. *)
Definition shell : App.Shell :=
  {| App.app := app_world; App.origin_chips := []; App.dest_chips := [];
     App.delete_backdrop_hidden := true;
     App.calendar_backdrop_hidden := true;
     App.year_display := "2024"; App.current_year_label := "2024";
     App.location_href := None |}.

(** A server that answers every read with the sample data. *)
Definition server : Server :=
  fun r =>
    match endpoint r as e
      return match e with
             | Trips => result (list Trip)
             | SummaryOf => result Summary
             | CreateTrip => result Trip
             | UpdateTrip => result unit
             | DeleteTrip => result unit
             | Calendar => result (option (list CalendarEvent))
             end
    with
    | Trips => Return [trip_copenhagen]
    | SummaryOf => Return summary
    | CreateTrip => Return trip_copenhagen
    | UpdateTrip => Return tt
    | DeleteTrip => Return tt
    | Calendar => Return None
    end.

End Sample.

(** ** The filter condition in one piece *)

Module Stated.

Section WithPlatform.

Variable P : Platform.

(** The month of the trip is the selected month, when one is selected. *)
Definition month_ok (st : App.State) (t : Trip) : bool :=
  String.eqb (App.selectedMonth st) "all"
  || App.strict_eq (App.tripMonth P t) (parseInt P (App.selectedMonth st)).

(** The lowercased query is a substring of the lowercased purpose, origin
    or destination, when a query is set. *)
Definition search_ok (st : App.State) (t : Trip) : bool :=
  negb (str_truthy (App.searchQuery st))
  || includes (toLowerCase P (App.searchQuery st)) (toLowerCase P (purpose t))
  || includes (toLowerCase P (App.searchQuery st)) (toLowerCase P (origin t))
  || includes (toLowerCase P (App.searchQuery st))
              (toLowerCase P (destination t)).

(** [round_trip] matches the active type filter. *)
Definition type_ok (st : App.State) (t : Trip) : bool :=
  if String.eqb (App.activeFilter st) "round-trip" then round_trip t
  else if String.eqb (App.activeFilter st) "one-way" then negb (round_trip t)
  else true.

(** All active filters at once. *)
Definition passes (st : App.State) (t : Trip) : bool :=
  month_ok st t && search_ok st t && type_ok st t.

(** The search condition as the claim words it: the lowercased query is
    looked up in the fields as they are stored. *)
Definition search_ok_as_stated (st : App.State) (t : Trip) : bool :=
  negb (str_truthy (App.searchQuery st))
  || includes (toLowerCase P (App.searchQuery st)) (purpose t)
  || includes (toLowerCase P (App.searchQuery st)) (origin t)
  || includes (toLowerCase P (App.searchQuery st)) (destination t).

Definition passes_as_stated (st : App.State) (t : Trip) : bool :=
  month_ok st t && search_ok_as_stated st t && type_ok st t.

End WithPlatform.

End Stated.

(** ** Notions used in the statements *)

(** Whether rows are shown. *)
Definition has_rows (l : list App.Row) : bool :=
  match l with [] => false | _ :: _ => true end.

(** The world left by [loadTrips] once its request is answered. *)
Definition loadTrips_done (P : Platform) (r : result (list Trip))
    (w : App.World) : App.World :=
  match r with
  | Throw m =>
      App.setLoading false (App.showToast P m "error" (App.setLoading true w))
  | Return l =>
      App.setLoading false
        (App.updateMonthTabIndicators P
           (App.renderTrips P
              (App.applyFilters P
                 (App.with_state
                    (App.set_trips l (App.state (App.setLoading true w)))
                    (App.setLoading true w)))))
  end.

(** The location buttons of the second version show the selection held
    in the variables. *)
Definition buttons_in_step (pg : V1.Page) : Prop :=
  V1.el_origin_locations pg
  = map (V1.location_button (V1.selectedOrigin pg)) (V1.locations pg)
  /\ V1.el_dest_locations pg
     = map (V1.location_button (V1.selectedDest pg)) (V1.locations pg).

(** * Properties *)

(** ** [escapeHtml] *)

Lemma html_special_entity (c : ascii) :
  Html.html_special c = true ->
  assoc (String c "") Html.entities = Some (Html.entity_of_char c).
Proof.
  unfold Html.html_special, Html.entity_of_char, Html.entities.
  intros H.
  destruct (Ascii.eqb c "&") eqn:E1;
    [apply Ascii.eqb_eq in E1; subst c; reflexivity|].
  destruct (Ascii.eqb c "<") eqn:E2;
    [apply Ascii.eqb_eq in E2; subst c; reflexivity|].
  destruct (Ascii.eqb c ">") eqn:E3;
    [apply Ascii.eqb_eq in E3; subst c; reflexivity|].
  destruct (Ascii.eqb c dquote) eqn:E4;
    [apply Ascii.eqb_eq in E4; subst c; reflexivity|].
  destruct (Ascii.eqb c "'") eqn:E5;
    [apply Ascii.eqb_eq in E5; subst c; reflexivity|].
  discriminate H.
Qed.

Lemma html_plain_entity (c : ascii) :
  Html.html_special c = false -> Html.entity_of_char c = String c "".
Proof.
  unfold Html.html_special, Html.entity_of_char.
  intros H.
  repeat (apply orb_false_elim in H; destruct H as [H ?]).
  now rewrite H, H0, H1, H2, H3.
Qed.

Lemma replace_class_entities (s : string) :
  Html.replace_class Html.html_special (fun m => assoc m Html.entities) s
  = Html.escape_spec s.
Proof.
  induction s as [|c s IH]; [reflexivity|].
  cbn [Html.replace_class Html.escape_spec].
  rewrite IH. f_equal.
  destruct (Html.html_special c) eqn:E.
  - now rewrite (html_special_entity c E).
  - now rewrite (html_plain_entity c E).
Qed.

Lemma escape_spec_app (s1 s2 : string) :
  Html.escape_spec (s1 ++ s2)%string
  = (Html.escape_spec s1 ++ Html.escape_spec s2)%string.
Proof.
  induction s1 as [|c s1 IH]; [reflexivity|].
  cbn [append Html.escape_spec]. rewrite IH.
  generalize (Html.entity_of_char c) as e.
  induction e as [|x e IHe]; [reflexivity|].
  cbn [append]. now rewrite IHe.
Qed.

(** C9: for every string [s], [escapeHtml] of the first two versions
    replaces each ampersand, less-than, greater-than, double quote and
    apostrophe of [s] by its entity and leaves every other character as it
    is; for [null] or [undefined] it returns the empty string. *)
Theorem escapeHtml_replaces_each_special :
  (forall s : string, Html.escapeHtml (Some s) = Html.escape_spec s)
  /\ (forall s1 s2 : string,
        Html.escapeHtml (Some (s1 ++ s2)%string)
        = (Html.escapeHtml (Some s1) ++ Html.escapeHtml (Some s2))%string)
  /\ Html.entity_of_char "&" = "&amp;"
  /\ Html.entity_of_char "<" = "&lt;"
  /\ Html.entity_of_char ">" = "&gt;"
  /\ Html.entity_of_char dquote = "&quot;"
  /\ Html.entity_of_char "'" = "&#039;"
  /\ (forall c : ascii,
        Html.html_special c = false -> Html.entity_of_char c = String c "")
  /\ Html.escapeHtml None = "".
Proof.
  assert (E : forall s, Html.escapeHtml (Some s) = Html.escape_spec s).
  { intros s. unfold Html.escapeHtml, Html.or_empty.
    destruct s as [|c s]; [reflexivity|].
    cbn [str_truthy]. apply replace_class_entities. }
  repeat split; try reflexivity.
  - exact E.
  - intros s1 s2. rewrite !E. apply escape_spec_app.
  - exact html_plain_entity.
Qed.

(** ** [fetchJSON] *)

Section FetchJSONFacts.

Variable parse : string -> option json.
Variable num : float -> string.
Variable conv : string.

Lemma optional_detail_get_prop (data : json) :
  Http.optional_detail data = get_prop "detail" data.
Proof. now destruct data. Qed.

(** The two ways of selecting the message agree. *)
Lemma error_message_v0_eq (data : json) (res : Http.Response) :
  Http.error_message_v0 num conv data res = Http.error_message num conv data res.
Proof.
  unfold Http.error_message_v0, Http.error_message.
  rewrite optional_detail_get_prop.
  destruct data as [| b | x | s | l | props]; cbn [truthy get_prop truthy_opt];
    try reflexivity.
  - now destruct b.
  - now destruct (num_truthy x).
  - now destruct (str_truthy s).
  - destruct (assoc "detail" props) as [d|]; cbn [truthy_opt]; reflexivity.
Qed.

Lemma fetchJSON_v0_eq (o : Http.FetchOutcome) :
  Http.fetchJSON_v0 parse num conv o = Http.fetchJSON parse num conv o.
Proof.
  destruct o as [m|res]; [reflexivity|].
  unfold Http.fetchJSON_v0, Http.fetchJSON, Http.fetchJSON_response.
  cbv zeta. now rewrite error_message_v0_eq.
Qed.

(** A plain object, one without a [toString] property of its own, converts
    to the text [[object Object]] whatever else it holds. *)
Lemma ToString_plain_object (props : list (string * json)) :
  assoc "toString" props = None ->
  ToString num (JObj props) = Some "[object Object]".
Proof. intros H. cbn [ToString]. now rewrite H. Qed.

(** An object with a [toString] property of its own does not convert, and
    neither does an array that holds one. *)
Lemma ToString_own_toString (props : list (string * json)) (v : json)
    (before after : list json) :
  assoc "toString" props = Some v ->
  ToString num (JObj props) = None
  /\ ToString num (JArr (before ++ JObj props :: after)) = None.
Proof.
  intros H. split; [cbn [ToString]; now rewrite H|].
  cbn [ToString]. rewrite map_app. cbn [map ToString]. rewrite H.
  induction before as [|e before IH]; [reflexivity|].
  cbn [map app all_some].
  destruct (match e with JNull => Some ""%string | _ => ToString num e end);
    [|reflexivity].
  destruct (all_some _); [discriminate IH|reflexivity].
Qed.

End FetchJSONFacts.

(** C3 as stated fails on three bodies of a reply that is not ok, each of
    which parses to an object with a [detail] property.  When [detail] is
    the empty string, the thrown message is the raw body text and not that
    detail.  When [detail] is an array of objects, as in a validation
    error, the thrown message is the text [[object Object]], the string
    conversion of the detail, and not the detail.  When [detail] is an
    object with a [toString] property, the conversion itself throws, and
    the message is that of the [TypeError]. *)
Lemma fetchJSON_detail_counterexample :
  Sample.parse Sample.empty_detail_body = Some (JObj [("detail", JStr "")])
  /\ Http.fetchJSON Sample.parse (Number_toString Sample.platform)
       Sample.conversion_error
       (Http.Resolved {| Http.ok := false; Http.status := 400;
                         Http.text := Sample.empty_detail_body |})
     = Throw Sample.empty_detail_body
  /\ String.eqb Sample.empty_detail_body "" = false
  /\ Sample.parse Sample.validation_body
     = Some (JObj [("detail", JArr [JObj [("msg", JStr "field required")]])])
  /\ Http.fetchJSON Sample.parse (Number_toString Sample.platform)
       Sample.conversion_error
       (Http.Resolved {| Http.ok := false; Http.status := 422;
                         Http.text := Sample.validation_body |})
     = Throw "[object Object]"
  /\ Sample.parse Sample.own_toString_body
     = Some (JObj [("detail", JObj [("toString", JStr "x")])])
  /\ Http.fetchJSON Sample.parse (Number_toString Sample.platform)
       Sample.conversion_error
       (Http.Resolved {| Http.ok := false; Http.status := 400;
                         Http.text := Sample.own_toString_body |})
     = Throw "Cannot convert object to primitive value".
Proof. repeat split; reflexivity. Qed.

(** C3 (amended): for every response received, [fetchJSON] throws exactly
    when the response is not ok.  When the parsed body's [detail] property
    is truthy, the message is its string conversion (a non-empty string
    [detail] is the message itself), or the message of the [TypeError] when
    that conversion throws; otherwise the message is the raw body text when
    it is not empty, otherwise [HTTP <status>].  An ok response yields the
    parsed body, which is [null] when the body is empty or does not parse,
    and throws nothing.  When no response is received, the rejection of
    [fetch] is thrown as it is.  The two early versions behave alike. *)
Theorem fetchJSON_error_contract
    (parse : string -> option json) (num : float -> string) (conv : string)
    (res : Http.Response) :
  let data := Http.parse_body parse (Http.text res) in
  let out := Http.fetchJSON parse num conv (Http.Resolved res) in
  is_throw out = negb (Http.ok res)
  /\ (Http.ok res = false ->
      (forall d, get_prop "detail" data = Some d -> truthy d = true ->
                 match ToString num d with
                 | Some s => out = Throw s
                 | None => out = Throw conv
                 end)
      /\ (forall s, get_prop "detail" data = Some (JStr s) -> s <> "" ->
                    out = Throw s)
      /\ (truthy_opt (get_prop "detail" data) = false ->
          Http.text res <> "" -> out = Throw (Http.text res))
      /\ (truthy_opt (get_prop "detail" data) = false ->
          Http.text res = "" ->
          out = Throw ("HTTP " ++ string_of_nat (Http.status res))%string))
  /\ (Http.ok res = true -> out = Return data)
  /\ (Http.ok res = true ->
      Http.text res = "" \/ parse (Http.text res) = None ->
      out = Return JNull)
  /\ Http.fetchJSON_v0 parse num conv (Http.Resolved res) = out
  /\ (forall m : string,
        Http.fetchJSON parse num conv (Http.Rejected m) = Throw m
        /\ Http.fetchJSON_v0 parse num conv (Http.Rejected m) = Throw m).
Proof.
  cbv zeta.
  assert (D : forall d,
             get_prop "detail" (Http.parse_body parse (Http.text res)) = Some d ->
             truthy d = true ->
             Http.error_message num conv
               (Http.parse_body parse (Http.text res)) res
             = Http.new_Error num conv d).
  { intros d Hd Ht. unfold Http.error_message.
    now rewrite optional_detail_get_prop, Hd, Ht. }
  assert (F : truthy_opt
                (get_prop "detail" (Http.parse_body parse (Http.text res)))
              = false ->
              Http.error_message num conv
                (Http.parse_body parse (Http.text res)) res
              = Http.text_or_status res).
  { intros Hf. unfold Http.error_message.
    rewrite optional_detail_get_prop.
    destruct (get_prop "detail" _) as [d|]; [|reflexivity].
    cbn [truthy_opt] in Hf. now rewrite Hf. }
  unfold Http.fetchJSON, Http.fetchJSON_response. cbv zeta.
  split; [now destruct (Http.ok res)|].
  split; [intros Hok; rewrite Hok; cbn [negb]|split; [|split; [|split]]].
  - repeat split.
    + intros d Hd Ht. rewrite (D d Hd Ht). unfold Http.new_Error.
      now destruct (ToString num d).
    + intros s Hd Hs. rewrite (D (JStr s) Hd); [reflexivity|].
      destruct s; [congruence|reflexivity].
    + intros Hf Ht. rewrite (F Hf). unfold Http.text_or_status.
      destruct (Http.text res); [congruence|reflexivity].
    + intros Hf Ht. rewrite (F Hf). unfold Http.text_or_status.
      now rewrite Ht.
  - intros Hok. now rewrite Hok.
  - intros Hok Hbody. rewrite Hok. cbn [negb]. f_equal.
    unfold Http.parse_body.
    destruct Hbody as [-> | ->]; [reflexivity|].
    now destruct (str_truthy (Http.text res)).
  - rewrite (fetchJSON_v0_eq parse num conv). reflexivity.
  - intros m. split; reflexivity.
Qed.

(** The contract at five replies: a 404 with an empty body, a 500 with a
    plain-text body, a 501 whose JSON body carries a text [detail], a 400
    whose [detail] does not convert, and an empty 201. *)
Lemma fetchJSON_error_contract_witness :
  Http.fetchJSON Sample.parse (Number_toString Sample.platform)
    Sample.conversion_error
    (Http.Resolved {| Http.ok := false; Http.status := 404;
                      Http.text := "" |})
  = Throw "HTTP 404"
  /\ Http.fetchJSON Sample.parse (Number_toString Sample.platform)
       Sample.conversion_error
       (Http.Resolved {| Http.ok := false; Http.status := 500;
                         Http.text := "Internal Server Error" |})
     = Throw "Internal Server Error"
  /\ Http.fetchJSON Sample.parse (Number_toString Sample.platform)
       Sample.conversion_error
       (Http.Resolved {| Http.ok := false; Http.status := 501;
                         Http.text := Sample.not_configured_body |})
     = Throw "Calendar not configured"
  /\ Http.fetchJSON Sample.parse (Number_toString Sample.platform)
       Sample.conversion_error
       (Http.Resolved {| Http.ok := false; Http.status := 400;
                         Http.text := Sample.own_toString_body |})
     = Throw Sample.conversion_error
  /\ Http.fetchJSON Sample.parse (Number_toString Sample.platform)
       Sample.conversion_error
       (Http.Resolved {| Http.ok := true; Http.status := 201;
                         Http.text := "" |})
     = Return JNull.
Proof.
  split; [|split; [|split; [|split]]].
  - exact (proj2 (proj2 (proj2
      (proj1 (proj2 (fetchJSON_error_contract Sample.parse
                       (Number_toString Sample.platform)
                       Sample.conversion_error
                       {| Http.ok := false; Http.status := 404;
                          Http.text := "" |})) eq_refl)))
      eq_refl eq_refl).
  - refine (proj1 (proj2 (proj2
      (proj1 (proj2 (fetchJSON_error_contract Sample.parse
                       (Number_toString Sample.platform)
                       Sample.conversion_error
                       {| Http.ok := false; Http.status := 500;
                          Http.text := "Internal Server Error" |})) eq_refl)))
      eq_refl _).
    discriminate.
  - refine (proj1 (proj2
      (proj1 (proj2 (fetchJSON_error_contract Sample.parse
                       (Number_toString Sample.platform)
                       Sample.conversion_error
                       {| Http.ok := false; Http.status := 501;
                          Http.text := Sample.not_configured_body |})) eq_refl))
      "Calendar not configured" eq_refl _).
    discriminate.
  - exact (proj1
      (proj1 (proj2 (fetchJSON_error_contract Sample.parse
                       (Number_toString Sample.platform)
                       Sample.conversion_error
                       {| Http.ok := false; Http.status := 400;
                          Http.text := Sample.own_toString_body |})) eq_refl)
      (JObj [("toString", JStr "x")]) eq_refl eq_refl).
  - exact (proj1 (proj2 (proj2 (proj2 (fetchJSON_error_contract Sample.parse
                       (Number_toString Sample.platform)
                       Sample.conversion_error
                       {| Http.ok := true; Http.status := 201;
                          Http.text := "" |}))))
      eq_refl (or_introl eq_refl)).
Defined.

(** ** Substrings *)

Lemma starts_with_iff (n h : string) :
  starts_with n h = true <-> exists b, h = (n ++ b)%string.
Proof.
  revert h. induction n as [|c n IH]; intros h.
  - split; [intros _; now exists h | now destruct h].
  - destruct h as [|d h]; cbn [starts_with append].
    + split; [discriminate | intros [b Hb]; discriminate].
    + rewrite andb_true_iff, Ascii.eqb_eq, IH. split.
      * intros [-> [b ->]]. now exists b.
      * intros [b Hb]. injection Hb as -> ->. split; [reflexivity|now exists b].
Qed.

(** [includes] decides the presence of a contiguous substring. *)
Lemma includes_iff (n h : string) :
  includes n h = true <-> exists a b, h = (a ++ n ++ b)%string.
Proof.
  induction h as [|d h IH]; cbn [includes].
  - rewrite orb_false_r, starts_with_iff. split.
    + intros [b Hb]. now exists "", b.
    + intros [a [b Hb]]. destruct a; [now exists b|discriminate].
  - rewrite orb_true_iff, starts_with_iff, IH. split.
    + intros [[b Hb] | [a [b Hb]]].
      * now exists "", b.
      * exists (String d a), b. cbn [append]. now rewrite Hb.
    + intros [a [b Hb]]. destruct a as [|x a].
      * left. now exists b.
      * right. exists a, b. cbn [append] in Hb. congruence.
Qed.

(** ** Calendar errors *)

(** C7: when loading the calendar events fails with message [m], the
    not-connected panel is shown whatever [m] is, and the error toast is
    left out exactly when [m] contains the text [not configured] or the
    text [501]; every other message is toasted.  Nothing but this substring
    test tells the two cases apart. *)
Theorem calendar_failure_string_match
    (P : Platform) (srv : Server) (w : App.World) :
  let r := step srv 0 (call (App.loadCalendarEvents P) w) in
  match srv App.calendar_request with
  | Return _ => True
  | Throw m =>
      quiescent r = true
      /\ App.cal_not_connected_hidden (App.calendar (world r)) = false
      /\ App.cal_loading_hidden (App.calendar (world r)) = true
      /\ App.toasts (world r)
         = (if includes "not configured" m || includes "501" m
            then App.toasts w
            else App.toasts w
                 ++ [ {| App.toast_type := "error";
                         App.toast_message := App.escapeHtml P (Some m) |} ])
      /\ (App.toasts (world r) = App.toasts w
          <-> (exists a b, m = (a ++ "not configured" ++ b)%string)
              \/ (exists a b, m = (a ++ "501" ++ b)%string))
  end.
Proof.
  cbv zeta.
  assert (T : forall (l : list App.Toast) (t : App.Toast), l ++ [t] <> l).
  { intros l t E. apply (f_equal (@List.length _)) in E.
    rewrite length_app in E. cbn in E. lia. }
  unfold step, call, App.loadCalendarEvents; cbn [pending task nth_error].
  cbn [settle world task].
  destruct (srv App.calendar_request) as [m|evs]; [|exact I].
  rewrite <- !includes_iff, <- orb_true_iff.
  cbn [world quiescent task pending].
  unfold App.calendar_catch, App.not_configured.
  destruct (includes "not configured" m || includes "501" m).
  - repeat split; reflexivity.
  - repeat split; try reflexivity.
    + intros E. now apply T in E.
    + discriminate.
Qed.

(** The messages [fetchJSON] produces for a calendar that is not set up
    are recognised, and the message of another failure is not. *)
Lemma not_configured_examples :
  Http.fetchJSON Sample.parse Sample.number_to_string
    Sample.conversion_error
    (Http.Resolved {| Http.ok := false; Http.status := 501;
                      Http.text := "" |})
  = Throw "HTTP 501"
  /\ App.not_configured "HTTP 501" = true
  /\ App.not_configured "Calendar integration not configured" = true
  /\ App.not_configured "HTTP 500" = false.
Proof. repeat split; reflexivity. Qed.

(** ** The requests of the trip form *)

(** C5: while a trip is being edited ([state.editingTripId] is set, so
    that the [if] of the submit handler takes the edit branch), submitting
    the form issues one request, a PATCH to [/api/trips/{id}], whose body is
    the serialised object with exactly the two properties [trip_date] and
    [purpose] taken from the form; origin, destination, round_trip and
    travel_mode are not among its properties. *)
Theorem edit_sends_patch_with_date_and_purpose
    (P : Platform) (w : App.World)
    (Hedit : App.editing (App.state w) = true) :
  exists id : Z,
    App.editingTripId (App.state w) = Some id
    /\ events (call (App.handleTripFormSubmit P) w)
       = [ Issued
             {| endpoint := UpdateTrip;
                http :=
                  {| method := "PATCH";
                     url := ("/api/trips/" ++ string_of_Z id)%string;
                     headers := [("Content-Type", "application/json")];
                     body :=
                       Some (JSON_stringify P
                               (JObj [ ("trip_date",
                                        JStr (App.in_trip_date (App.modal w)));
                                       ("purpose",
                                        JStr (App.in_purpose (App.modal w)))
                                     ])) |} |} ]
    /\ (forall k : string,
           In k ["origin"; "destination"; "round_trip"; "travel_mode"] ->
           get_prop k (App.patch_payload (App.modal w)) = None).
Proof.
  unfold App.editing in Hedit.
  destruct (App.editingTripId (App.state w)) as [id|] eqn:E; [|discriminate].
  exists id. split; [reflexivity|]. split;
    [|intros k [<-|[<-|[<-|[<-|[]]]]]; reflexivity].
  unfold call, App.handleTripFormSubmit. cbv zeta.
  unfold App.editing. cbn [App.state App.with_modal App.editingTripId].
  rewrite E, Hedit.
  cbn [pending map]. unfold App.patch_request, App.patch_payload, App.id_text.
  cbn [App.state App.with_modal App.modal App.set_button
       App.in_trip_date App.in_purpose].
  now rewrite E.
Qed.

Lemma edit_sends_patch_witness :
  exists id : Z,
    App.editingTripId (App.state Sample.app_world_editing) = Some id
    /\ events (call (App.handleTripFormSubmit Sample.platform)
                    Sample.app_world_editing)
       = [ Issued
             {| endpoint := UpdateTrip;
                http :=
                  {| method := "PATCH";
                     url := ("/api/trips/" ++ string_of_Z id)%string;
                     headers := [("Content-Type", "application/json")];
                     body :=
                       Some (JSON_stringify Sample.platform
                               (JObj [ ("trip_date", JStr "2024-03-05");
                                       ("purpose", JStr "Copenhagen") ])) |} |} ]
    /\ (forall k : string,
           In k ["origin"; "destination"; "round_trip"; "travel_mode"] ->
           get_prop k (App.patch_payload (App.modal Sample.app_world_editing))
           = None).
Proof.
  exact (edit_sends_patch_with_date_and_purpose
           Sample.platform Sample.app_world_editing eq_refl).
Defined.

(** C6: submitting the add-trip form (no trip being edited) issues one
    request, a POST to [/api/trips], whose body is the serialised object
    with exactly the properties [trip_date], [purpose], [origin],
    [destination], [round_trip] and [travel_mode], each the value of the
    form field of that name; [travel_mode] is the constant [DRIVE] in the
    two versions that have no travel-mode input and the value of that input
    in the first version. *)
Theorem add_sends_post_with_entered_fields (P : Platform) :
  (forall w : App.World,
      App.editing (App.state w) = false ->
      events (call (App.handleTripFormSubmit P) w)
      = [ Issued
            {| endpoint := CreateTrip;
               http :=
                 {| method := "POST"; url := "/api/trips";
                    headers := [("Content-Type", "application/json")];
                    body :=
                      Some (JSON_stringify P
                        (JObj
                           [ ("trip_date",
                              JStr (App.in_trip_date (App.modal w)));
                             ("purpose", JStr (App.in_purpose (App.modal w)));
                             ("origin", JStr (App.in_origin (App.modal w)));
                             ("destination",
                              JStr (App.in_destination (App.modal w)));
                             ("round_trip",
                              JBool (App.in_round_trip (App.modal w)));
                             ("travel_mode", JStr "DRIVE") ])) |} |} ])
  /\ (forall pg : V1.Page,
         events (call (V1.addTrip P) pg)
         = [ Issued
               {| endpoint := CreateTrip;
                  http :=
                    {| method := "POST"; url := "/api/trips";
                       headers := [("Content-Type", "application/json")];
                       body :=
                         Some (JSON_stringify P
                           (JObj
                              [ ("trip_date", JStr (V1.in_trip_date pg));
                                ("purpose", JStr (V1.in_purpose pg));
                                ("origin", JStr (V1.in_origin pg));
                                ("destination", JStr (V1.in_destination pg));
                                ("round_trip", JBool (V1.in_round_trip pg));
                                ("travel_mode", JStr "DRIVE") ])) |} |} ])
  /\ (forall pg : V0.Page,
         events (call (V0.addTrip P) pg)
         = [ Issued
               {| endpoint := CreateTrip;
                  http :=
                    {| method := "POST"; url := "/api/trips";
                       headers := [("Content-Type", "application/json")];
                       body :=
                         Some (JSON_stringify P
                           (JObj
                              [ ("trip_date", JStr (V0.in_trip_date pg));
                                ("purpose", JStr (V0.in_purpose pg));
                                ("origin", JStr (V0.in_origin pg));
                                ("destination", JStr (V0.in_destination pg));
                                ("round_trip", JBool (V0.in_round_trip pg));
                                ("travel_mode", JStr (V0.in_travel_mode pg))
                              ])) |} |} ]).
Proof.
  split; [|split].
  - intros w Hadd. unfold call, App.handleTripFormSubmit. cbv zeta.
    cbn [App.state App.with_modal]. rewrite Hadd. reflexivity.
  - intros pg. reflexivity.
  - intros pg. reflexivity.
Qed.

Lemma add_sends_post_witness :
  events (call (App.handleTripFormSubmit Sample.platform) Sample.app_world)
  = [ Issued
        {| endpoint := CreateTrip;
           http :=
             {| method := "POST"; url := "/api/trips";
                headers := [("Content-Type", "application/json")];
                body :=
                  Some (JSON_stringify Sample.platform
                    (JObj [ ("trip_date", JStr "2024-03-05");
                            ("purpose", JStr "Copenhagen");
                            ("origin", JStr "Home");
                            ("destination", JStr "Office");
                            ("round_trip", JBool true);
                            ("travel_mode", JStr "DRIVE") ])) |} |} ].
Proof.
  exact (proj1 (add_sends_post_with_entered_fields Sample.platform)
               Sample.app_world eq_refl).
Defined.

(** ** Filtering *)

Lemma filter_filter {A : Type} (p q : A -> bool) (l : list A) :
  filter p (filter q l) = filter (fun x => q x && p x) l.
Proof.
  induction l as [|x l IH]; [reflexivity|].
  cbn [filter]. destruct (q x); cbn [filter andb]; now rewrite IH.
Qed.

Lemma filter_true {A : Type} (l : list A) : filter (fun _ => true) l = l.
Proof. induction l as [|x l IH]; [reflexivity|]. cbn. now rewrite IH. Qed.

(** The cascade of [applyFilters] is one filter by the conjunction. *)
Lemma applyFilters_filter (P : Platform) (w : App.World) :
  App.filteredTrips (App.state (App.applyFilters P w))
  = filter (Stated.passes P (App.state w)) (App.trips (App.state w)).
Proof.
  unfold App.applyFilters. cbv zeta.
  cbn [App.state App.with_state App.filteredTrips App.set_filteredTrips].
  set (st := App.state w). set (l := App.trips st).
  assert (M : (if negb (String.eqb (App.selectedMonth st) "all")
               then filter (App.month_matches P (App.selectedMonth st)) l
               else l)
              = filter (Stated.month_ok P st) l).
  { unfold Stated.month_ok, App.month_matches.
    destruct (String.eqb (App.selectedMonth st) "all"); cbn [negb orb].
    - now rewrite filter_true.
    - reflexivity. }
  rewrite M. clear M.
  assert (S : forall l0,
             (if str_truthy (App.searchQuery st)
              then filter (App.search_matches P
                             (toLowerCase P (App.searchQuery st))) l0
              else l0)
             = filter (Stated.search_ok P st) l0).
  { intros l0. unfold Stated.search_ok, App.search_matches.
    destruct (str_truthy (App.searchQuery st)); cbn [negb orb].
    - apply filter_ext. intros t. reflexivity.
    - now rewrite filter_true. }
  rewrite S. clear S.
  assert (T : forall l0,
             (if String.eqb (App.activeFilter st) "round-trip"
              then filter (fun t => round_trip t) l0
              else if String.eqb (App.activeFilter st) "one-way"
                   then filter (fun t => negb (round_trip t)) l0
                   else l0)
             = filter (Stated.type_ok st) l0).
  { intros l0. unfold Stated.type_ok.
    destruct (String.eqb (App.activeFilter st) "round-trip"); [reflexivity|].
    destruct (String.eqb (App.activeFilter st) "one-way"); [reflexivity|].
    now rewrite filter_true. }
  rewrite T. clear T.
  rewrite !filter_filter. apply filter_ext. intros t.
  unfold Stated.passes. now rewrite andb_assoc.
Qed.

(** C8 as stated fails: with the query [copenhagen] a trip whose purpose is
    [Copenhagen] stays in the filtered list, although the lowercased query
    is a substring of none of its three fields as stored. *)
Lemma applyFilters_case_counterexample :
  App.filteredTrips
    (App.state (App.applyFilters Sample.platform Sample.app_world_search))
  = [Sample.trip_copenhagen]
  /\ filter (Stated.passes_as_stated Sample.platform
               (App.state Sample.app_world_search))
            (App.trips (App.state Sample.app_world_search))
     = [].
Proof. split; reflexivity. Qed.

(** C8 (amended): after [applyFilters], [state.filteredTrips] is the
    order-preserving sublist of [state.trips] of the trips that satisfy
    all active filters: the trip month equals the selected month when one
    is selected; the lowercased query is a substring of the lowercased
    purpose, origin or destination when a query is set; [round_trip]
    matches the active type filter.  [state.trips] and the rest of the
    state are left as they were. *)
Theorem applyFilters_filters_a_copy (P : Platform) (w : App.World) :
  let w' := App.applyFilters P w in
  App.filteredTrips (App.state w')
  = filter (Stated.passes P (App.state w)) (App.trips (App.state w))
  /\ App.trips (App.state w') = App.trips (App.state w)
  /\ (forall t, In t (App.filteredTrips (App.state w'))
                <-> In t (App.trips (App.state w))
                    /\ Stated.passes P (App.state w) t = true)
  /\ w' = App.with_state
            (App.set_filteredTrips (App.filteredTrips (App.state w'))
                                   (App.state w)) w.
Proof.
  cbv zeta. split; [apply applyFilters_filter|].
  split; [reflexivity|]. split.
  - intros t. rewrite applyFilters_filter. apply filter_In.
  - reflexivity.
Qed.

(** ** Numbers *)

Lemma SFcompare_antisym (x y : SpecFloat.spec_float) :
  SpecFloat.SFcompare y x = option_map CompOpp (SpecFloat.SFcompare x y).
Proof.
  destruct x as [sx|sx| |sx mx ex], y as [sy|sy| |sy my ey]; cbn;
    try reflexivity;
    try (destruct sx; reflexivity); try (destruct sy; reflexivity);
    try (destruct sx, sy; reflexivity).
  assert (C : Pos.compare_cont Eq my mx = CompOpp (Pos.compare_cont Eq mx my)).
  { symmetry. exact (Pos.compare_cont_antisym mx my Eq). }
  destruct sx, sy; cbn; try reflexivity; f_equal;
    rewrite (Z.compare_antisym ey ex);
    destruct (ey ?= ex)%Z eqn:E; cbn; try reflexivity.
  all: rewrite C; try reflexivity.
  all: now destruct (Pos.compare_cont Eq mx my).
Qed.

(** [x > y] excludes [x <= y]. *)
Lemma ltb_leb_false (x y : float) :
  (y <? x)%float = true -> (x <=? y)%float = false.
Proof.
  rewrite ltb_spec, leb_spec. unfold SpecFloat.SFltb, SpecFloat.SFleb.
  rewrite (SFcompare_antisym (Prim2SF y) (Prim2SF x)).
  destruct (SpecFloat.SFcompare (Prim2SF y) (Prim2SF x)) as [[]|]; cbn;
    congruence.
Qed.

(** ** One-way distance of a row *)

Lemma one_way_km_cases (t : Trip) :
  (forall d, distance_one_way_km t = Some d ->
             (d =? 0)%float = false -> PrimFloat.is_nan d = false ->
             one_way_km t = d)
  /\ (forall d, distance_one_way_km t = Some d -> (d =? 0)%float = true ->
                one_way_km t
                = if round_trip t then (distance_km t / 2)%float
                  else distance_km t)
  /\ (distance_one_way_km t = None ->
      one_way_km t
      = if round_trip t then (distance_km t / 2)%float else distance_km t).
Proof.
  unfold one_way_km, one_way_fallback, num_truthy.
  repeat split.
  - intros d -> Hz Hn. now rewrite Hz, Hn.
  - intros d -> Hz. now rewrite Hz.
  - now intros ->.
Qed.

(** C10: every row of the trip list shows, as one-way distance, the
    formatted [distance_one_way_km] of its trip when that field is present
    and not zero; otherwise half of [distance_km] for a round trip and
    [distance_km] itself for a one-way trip.  A stored one-way distance of
    exactly zero is passed over for the fallback.  (A number read from
    JSON is never [NaN].)  The rows are those of [renderTrips] in app.js,
    one for each filtered trip, and those that [loadTrips] of the second
    version puts into the table when the trips arrive, one for each trip of
    the reply. *)
Theorem one_way_distance_displayed (P : Platform) (t : Trip) :
  App.cell_km_one (App.render_row P t)
  = App.formatNumber P (one_way_km t) 1
  /\ V1.row_one_way (V1.render_row P t) = toFixed P (one_way_km t) 1
  /\ (forall w : App.World,
         App.isLoading (App.state w) = false ->
         App.sheet_body (App.sheet (App.renderTrips P w))
         = map (App.render_row P) (App.filteredTrips (App.state w)))
  /\ (forall d, distance_one_way_km t = Some d ->
                (d =? 0)%float = false -> PrimFloat.is_nan d = false ->
                one_way_km t = d)
  /\ (forall d, distance_one_way_km t = Some d -> (d =? 0)%float = true ->
                one_way_km t
                = if round_trip t then (distance_km t / 2)%float
                  else distance_km t)
  /\ (distance_one_way_km t = None ->
      one_way_km t
      = if round_trip t then (distance_km t / 2)%float else distance_km t)
  /\ (forall (srv : Server) (pg : V1.Page),
         let r := step srv 0 (call (V1.loadTrips P) pg) in
         match srv (V1.trips_request (parseInt P (V1.in_year pg))) with
         | Throw _ => V1.el_tbody (world r) = V1.el_tbody pg
         | Return [] => V1.el_tbody (world r) = V1.EmptyNotice
         | Return (t1 :: l) =>
             V1.el_tbody (world r) = V1.Rows (map (V1.render_row P) (t1 :: l))
             /\ map V1.row_one_way (map (V1.render_row P) (t1 :: l))
                = map (fun t' => toFixed P (one_way_km t') 1) (t1 :: l)
         end)
  /\ (forall w : App.World,
         App.isLoading (App.state w) = false ->
         map App.cell_km_one
             (App.sheet_body (App.sheet (App.renderTrips P w)))
         = map (fun t' => App.formatNumber P (one_way_km t') 1)
               (App.filteredTrips (App.state w))).
Proof.
  assert (R : forall w : App.World,
             App.isLoading (App.state w) = false ->
             App.sheet_body (App.sheet (App.renderTrips P w))
             = map (App.render_row P) (App.filteredTrips (App.state w))).
  { intros w Hl. unfold App.renderTrips. cbv zeta.
    cbn [App.sheet App.with_sheet App.sheet_body App.state
         App.updateStatsDisplay App.with_stats].
    rewrite Hl, orb_false_r.
    destruct (App.filteredTrips (App.state w)); reflexivity. }
  split; [reflexivity|]. split; [reflexivity|]. split; [exact R|].
  pose proof (one_way_km_cases t) as (K1 & K2 & K3).
  split; [exact K1|]. split; [exact K2|]. split; [exact K3|]. split.
  - intros srv pg. cbv zeta.
    remember (srv (V1.trips_request (parseInt P (V1.in_year pg)))) as a eqn:Ha.
    symmetry in Ha.
    unfold step, call, V1.loadTrips.
    cbn [task pending nth_error world events settle].
    rewrite Ha. cbn in a.
    destruct a as [m|[|t1 l]]; [reflexivity|reflexivity|].
    split; [reflexivity|].
    rewrite map_map. reflexivity.
  - intros w Hl. rewrite (R w Hl), map_map. reflexivity.
Qed.

(** The three cases on stored trips: a one-way distance of 5 km is shown
    as it is, [5,0]; a stored 0 on a 10 km round trip gives way to 5 km; a
    missing one on a 25000 km one-way trip gives way to the whole
    distance.  The table of the second version after its trips have
    arrived shows [5.0] in its one row. *)
Lemma one_way_distance_displayed_witness :
  App.cell_km_one (App.render_row Sample.platform Sample.trip_copenhagen)
  = "5,0"
  /\ V1.row_one_way (V1.render_row Sample.platform Sample.trip_copenhagen)
     = "5.0"
  /\ one_way_km Sample.trip_copenhagen = 5%float
  /\ one_way_km
       {| trip_id := 3; trip_date := "2024-03-06"; purpose := "Visit";
          origin := "Home"; destination := "Office"; round_trip := true;
          distance_km := 10%float; distance_one_way_km := Some 0%float |}
     = (10 / 2)%float
  /\ one_way_km Sample.trip_long = 25000%float
  /\ App.sheet_body
       (App.sheet (App.renderTrips Sample.platform Sample.app_world))
     = map (App.render_row Sample.platform)
           (App.filteredTrips (App.state Sample.app_world))
  /\ V1.el_tbody
       (world (step Sample.server 0
                 (call (V1.loadTrips Sample.platform) Sample.v1_page)))
     = V1.Rows [V1.render_row Sample.platform Sample.trip_copenhagen]
  /\ map App.cell_km_one
       (App.sheet_body
          (App.sheet (App.renderTrips Sample.platform Sample.app_world)))
     = ["5,0"].
Proof.
  split; [|split; [|split; [|split; [|split; [|split; [|split]]]]]].
  - exact (proj1
      (one_way_distance_displayed Sample.platform Sample.trip_copenhagen)).
  - exact (proj1 (proj2
      (one_way_distance_displayed Sample.platform Sample.trip_copenhagen))).
  - exact (proj1 (proj2 (proj2 (proj2
      (one_way_distance_displayed Sample.platform Sample.trip_copenhagen))))
      5%float eq_refl eq_refl eq_refl).
  - exact (proj1 (proj2 (proj2 (proj2 (proj2
      (one_way_distance_displayed Sample.platform
         {| trip_id := 3; trip_date := "2024-03-06"; purpose := "Visit";
            origin := "Home"; destination := "Office"; round_trip := true;
            distance_km := 10%float;
            distance_one_way_km := Some 0%float |})))))
      0%float eq_refl eq_refl).
  - exact (proj1 (proj2 (proj2 (proj2 (proj2 (proj2
      (one_way_distance_displayed Sample.platform Sample.trip_long))))))
      eq_refl).
  - exact (proj1 (proj2 (proj2
      (one_way_distance_displayed Sample.platform Sample.trip_long)))
      Sample.app_world eq_refl).
  - exact (proj1 (proj1 (proj2 (proj2 (proj2 (proj2 (proj2 (proj2
      (one_way_distance_displayed Sample.platform Sample.trip_long)))))))
      Sample.server Sample.v1_page)).
  - exact (proj2 (proj2 (proj2 (proj2 (proj2 (proj2 (proj2
      (one_way_distance_displayed Sample.platform Sample.trip_long)))))))
      Sample.app_world eq_refl).
Defined.

(** ** The stats bar *)

(** C2: with [T] the sum of [distance_km] over the filtered trips, the
    amount shown in the stats bar is the formatted [T * rate_high] when
    [T <= 20000] and the formatted
    [20000 * rate_high + (T - 20000) * rate_low] when [T > 20000]. *)
Theorem stats_amount_is_tiered (P : Platform) (w : App.World) :
  let T := App.totalKm (App.filteredTrips (App.state w)) in
  let rate_high := App.high (App.yearlyRates w) in
  let rate_low := App.low (App.yearlyRates w) in
  T = fold_left (fun sum t => (sum + distance_km t)%float)
                (App.filteredTrips (App.state w)) 0%float
  /\ ((T <=? 20000)%float = true ->
      App.stat_amount (App.stats (App.updateStatsDisplay P w))
      = (App.formatNumber P (T * rate_high)%float 2 ++ " kr")%string)
  /\ ((20000 <? T)%float = true ->
      App.stat_amount (App.stats (App.updateStatsDisplay P w))
      = (App.formatNumber P
           (20000 * rate_high + (T - 20000) * rate_low)%float 2
         ++ " kr")%string).
Proof.
  cbv zeta. split; [reflexivity|].
  unfold App.updateStatsDisplay. cbv zeta.
  cbn [App.stats App.with_stats App.stat_amount].
  unfold App.reimbursement, App.threshold.
  split.
  - intros H. now rewrite H.
  - intros H. now rewrite (ltb_leb_false _ _ H).
Qed.

(** Both tiers on concrete worlds: 10 km in all at 3.94 per km, and
    25000 km in all, of which 5000 km at 2.28 per km. *)
Lemma stats_amount_is_tiered_witness :
  App.stat_amount
    (App.stats (App.updateStatsDisplay Sample.platform Sample.app_world))
  = "39,40 kr"
  /\ App.stat_amount
       (App.stats
          (App.updateStatsDisplay Sample.platform Sample.app_world_long))
     = "90.200,00 kr".
Proof.
  split.
  - exact (proj1 (proj2
      (stats_amount_is_tiered Sample.platform Sample.app_world)) eq_refl).
  - exact (proj2 (proj2
      (stats_amount_is_tiered Sample.platform Sample.app_world_long))
      eq_refl).
Defined.

(** ** Refresh *)

(** Runs the event loop forward, answering the two requests with the
    replies recorded in [Ha] and [Hb]. *)
Ltac replay Ha Hb := repeat (cbn; rewrite ?Ha, ?Hb).

(** C4 as stated fails for the first version: its [refresh] has only the
    trips request in flight when it suspends, and issues the summary
    request after the trips have been answered. *)
Lemma v0_refresh_sequential_counterexample :
  events (call (V0.refresh Sample.platform) Sample.v0_page)
  = [ Issued (V0.trips_request (Some 2024%Z)) ]
  /\ events (run Sample.server trips_first
               (call (V0.refresh Sample.platform) Sample.v0_page))
     = [ Issued (V0.trips_request (Some 2024%Z));
         Answered (V0.trips_request (Some 2024%Z));
         Issued (V0.summary_request (Some 2024%Z));
         Answered (V0.summary_request (Some 2024%Z)) ].
Proof. split; reflexivity. Qed.

Section RefreshFacts.

Variable P : Platform.
Variable srv : Server.

Lemma app_refresh_call (w : App.World) :
  call (App.refresh P) w
  = {| world := App.setLoading true w;
       task := snd (App.refresh P w);
       events :=
         [ Issued (App.trips_request (App.selectedYear (App.state w)));
           Issued (App.summary_request (App.selectedYear (App.state w))) ] |}.
Proof. reflexivity. Qed.

Lemma app_refresh_any_order (w : App.World) :
  let r0 := call (App.refresh P) w in
  let trips := App.trips_request (App.selectedYear (App.state w)) in
  let summary := App.summary_request (App.selectedYear (App.state w)) in
  events (run srv trips_first r0)
  = [Issued trips; Issued summary; Answered trips; Answered summary]
  /\ events (run srv summary_first r0)
     = [Issued trips; Issued summary; Answered summary; Answered trips]
  /\ world (run srv trips_first r0) = world (run srv summary_first r0)
  /\ quiescent (run srv trips_first r0) = true
  /\ quiescent (run srv summary_first r0) = true.
Proof.
  cbv zeta. rewrite app_refresh_call.
  remember (srv (App.trips_request (App.selectedYear (App.state w))))
    as a eqn:Ha.
  remember (srv (App.summary_request (App.selectedYear (App.state w))))
    as b eqn:Hb.
  symmetry in Ha, Hb.
  unfold trips_first, summary_first, run, step.
  cbn [task pending snd App.refresh App.loadTrips App.loadSummary
       all2 join2 fst app nth_error world events].
  replay Ha Hb.
  cbn in a, b.
  destruct a as [ma|l], b as [mb|s]; replay Ha Hb;
    repeat split.
Qed.

(** The promise of [refresh] in app.js: unsettled while either request is
    in flight, fulfilled once both are answered, whatever the answers. *)
Lemma app_refresh_settles_after_both (w : App.World) :
  let r0 := call (App.refresh P) w in
  let trips := App.trips_request (App.selectedYear (App.state w)) in
  let summary := App.summary_request (App.selectedYear (App.state w)) in
  settled (task (step srv 0 r0)) = None
  /\ pending (task (step srv 0 r0)) = [summary]
  /\ settled (task (step srv 1 r0)) = None
  /\ pending (task (step srv 1 r0)) = [trips]
  /\ settled (task (run srv trips_first r0)) = Some (Return tt)
  /\ settled (task (run srv summary_first r0)) = Some (Return tt).
Proof.
  cbv zeta. rewrite app_refresh_call.
  remember (srv (App.trips_request (App.selectedYear (App.state w))))
    as a eqn:Ha.
  remember (srv (App.summary_request (App.selectedYear (App.state w))))
    as b eqn:Hb.
  symmetry in Ha, Hb.
  unfold trips_first, summary_first, run, step.
  cbn [task pending snd App.refresh App.loadTrips App.loadSummary
       all2 join2 fst app nth_error world events].
  replay Ha Hb.
  cbn in a, b.
  destruct a as [ma|l], b as [mb|s]; replay Ha Hb;
    repeat split.
Qed.

Lemma v1_refresh_call (pg : V1.Page) :
  call (V1.refresh P) pg
  = {| world := V1.setStatus "" false pg;
       task := snd (V1.refresh P pg);
       events :=
         [ Issued (V1.trips_request (parseInt P (V1.in_year pg)));
           Issued (V1.summary_request (parseInt P (V1.in_year pg))) ] |}.
Proof. reflexivity. Qed.

Lemma v1_refresh_any_order (pg : V1.Page) :
  let r0 := call (V1.refresh P) pg in
  let trips := V1.trips_request (parseInt P (V1.in_year pg)) in
  let summary := V1.summary_request (parseInt P (V1.in_year pg)) in
  events (run srv trips_first r0)
  = [Issued trips; Issued summary; Answered trips; Answered summary]
  /\ events (run srv summary_first r0)
     = [Issued trips; Issued summary; Answered summary; Answered trips]
  /\ world (run srv trips_first r0) = world (run srv summary_first r0)
  /\ quiescent (run srv trips_first r0) = true
  /\ quiescent (run srv summary_first r0) = true.
Proof.
  cbv zeta. rewrite v1_refresh_call.
  remember (srv (V1.trips_request (parseInt P (V1.in_year pg)))) as a eqn:Ha.
  remember (srv (V1.summary_request (parseInt P (V1.in_year pg))))
    as b eqn:Hb.
  symmetry in Ha, Hb.
  unfold trips_first, summary_first, run, step.
  cbn [task pending snd V1.refresh V1.loadTrips V1.loadSummary
       all2 join2 fst app nth_error world events].
  replay Ha Hb.
  cbn in a, b.
  destruct a as [ma|l], b as [mb|s]; replay Ha Hb.
  all: try (destruct l as [|t l]; replay Ha Hb).
  all: try (destruct (V1.summary_box P (parseInt P (V1.in_year pg)) s)
              as [box|]; replay Ha Hb).
  all: repeat split.
Qed.

(** The promise of [refresh] in the second version: unsettled while either
    request is in flight, unless the trips request has failed, which
    [Promise.all] reports at once; fulfilled once both are answered.  The
    failure of the trips request is what the status line then shows. *)
Lemma v1_refresh_settles_after_both (pg : V1.Page) :
  let r0 := call (V1.refresh P) pg in
  let trips := V1.trips_request (parseInt P (V1.in_year pg)) in
  let summary := V1.summary_request (parseInt P (V1.in_year pg)) in
  settled (task (step srv 0 r0))
  = match srv trips with
    | Throw _ => Some (Return tt)
    | Return _ => None
    end
  /\ pending (task (step srv 0 r0)) = [summary]
  /\ settled (task (step srv 1 r0)) = None
  /\ pending (task (step srv 1 r0)) = [trips]
  /\ settled (task (run srv trips_first r0)) = Some (Return tt)
  /\ settled (task (run srv summary_first r0)) = Some (Return tt)
  /\ V1.el_status (world (run srv trips_first r0))
     = match srv trips with
       | Throw m => m
       | Return _ => ""%string
       end.
Proof.
  cbv zeta. rewrite v1_refresh_call.
  remember (srv (V1.trips_request (parseInt P (V1.in_year pg)))) as a eqn:Ha.
  remember (srv (V1.summary_request (parseInt P (V1.in_year pg))))
    as b eqn:Hb.
  symmetry in Ha, Hb.
  unfold trips_first, summary_first, run, step.
  cbn [task pending snd V1.refresh V1.loadTrips V1.loadSummary
       all2 join2 fst app nth_error world events].
  replay Ha Hb.
  cbn in a, b.
  destruct a as [ma|l], b as [mb|s]; replay Ha Hb.
  all: try (destruct l as [|t l]; replay Ha Hb).
  all: try (destruct (V1.summary_box P (parseInt P (V1.in_year pg)) s)
              as [box|]; replay Ha Hb).
  all: repeat split.
Qed.

(** The first version, on every page and with every server: one request is
    in flight after the call, and the summary request is issued by the
    answer to the trips request, when that answer is a success. *)
Lemma v0_refresh_in_sequence (pg : V0.Page) :
  let r0 := call (V0.refresh P) pg in
  let trips := V0.trips_request (parseInt P (V0.in_year pg)) in
  let summary := V0.summary_request (parseInt P (V0.in_year pg)) in
  events r0 = [Issued trips]
  /\ events (step srv 0 r0)
     = match srv trips with
       | Throw _ => [Issued trips; Answered trips]
       | Return _ => [Issued trips; Answered trips; Issued summary]
       end
  /\ settled (task (step srv 0 r0))
     = match srv trips with
       | Throw m => Some (Throw m)
       | Return _ => None
       end.
Proof.
  cbv zeta. split; [reflexivity|].
  remember (srv (V0.trips_request (parseInt P (V0.in_year pg)))) as a eqn:Ha.
  symmetry in Ha.
  unfold step, call, V0.refresh.
  cbn [task pending nth_error world events settle map app V0.in_year
       V0.setError].
  rewrite Ha. cbn in a.
  destruct a as [m|l]; split; reflexivity.
Qed.

End RefreshFacts.

(** C4 (amended): in app.js and in the second version, [refresh] has
    issued both requests, trips and summary, when it first suspends, on
    [Promise.all] of the two loaders, and issues nothing after an answer.
    Its promise stays unsettled until both requests are answered (in the
    second version a failed trips request settles it at once, with the
    failure on the status line), and is fulfilled then; whichever of the
    two is answered first, the page and the variables end up the same and
    nothing stays in flight.  The first version, on every page, has only the
    trips request in flight when it suspends, and issues the summary request
    when the trips have been answered with success. *)
Theorem refresh_requests_are_joint (P : Platform) (srv : Server) :
  (forall w : App.World,
      let r0 := call (App.refresh P) w in
      let trips := App.trips_request (App.selectedYear (App.state w)) in
      let summary := App.summary_request (App.selectedYear (App.state w)) in
      events r0 = [Issued trips; Issued summary]
      /\ events (run srv trips_first r0)
         = [Issued trips; Issued summary; Answered trips; Answered summary]
      /\ events (run srv summary_first r0)
         = [Issued trips; Issued summary; Answered summary; Answered trips]
      /\ world (run srv trips_first r0) = world (run srv summary_first r0)
      /\ quiescent (run srv trips_first r0) = true
      /\ quiescent (run srv summary_first r0) = true
      /\ (exists k,
             task r0
             = All2 (snd (App.loadTrips P w))
                    (snd (App.loadSummary P (fst (App.loadTrips P w)))) k)
      /\ settled (task r0) = None
      /\ settled (task (step srv 0 r0)) = None
      /\ pending (task (step srv 0 r0)) = [summary]
      /\ settled (task (step srv 1 r0)) = None
      /\ pending (task (step srv 1 r0)) = [trips]
      /\ settled (task (run srv trips_first r0)) = Some (Return tt)
      /\ settled (task (run srv summary_first r0)) = Some (Return tt))
  /\ (forall pg : V1.Page,
         let r0 := call (V1.refresh P) pg in
         let trips := V1.trips_request (parseInt P (V1.in_year pg)) in
         let summary := V1.summary_request (parseInt P (V1.in_year pg)) in
         events r0 = [Issued trips; Issued summary]
         /\ events (run srv trips_first r0)
            = [Issued trips; Issued summary; Answered trips; Answered summary]
         /\ events (run srv summary_first r0)
            = [Issued trips; Issued summary; Answered summary; Answered trips]
         /\ world (run srv trips_first r0) = world (run srv summary_first r0)
         /\ quiescent (run srv trips_first r0) = true
         /\ quiescent (run srv summary_first r0) = true
         /\ (exists k,
                task r0
                = All2 (snd (V1.loadTrips P (V1.setStatus "" false pg)))
                       (snd (V1.loadSummary P
                               (fst (V1.loadTrips P
                                       (V1.setStatus "" false pg))))) k)
         /\ settled (task r0) = None
         /\ settled (task (step srv 0 r0))
            = match srv trips with
              | Throw _ => Some (Return tt)
              | Return _ => None
              end
         /\ pending (task (step srv 0 r0)) = [summary]
         /\ settled (task (step srv 1 r0)) = None
         /\ pending (task (step srv 1 r0)) = [trips]
         /\ settled (task (run srv trips_first r0)) = Some (Return tt)
         /\ settled (task (run srv summary_first r0)) = Some (Return tt)
         /\ V1.el_status (world (run srv trips_first r0))
            = match srv trips with
              | Throw m => m
              | Return _ => ""%string
              end)
  /\ (forall pg : V0.Page,
         let r0 := call (V0.refresh P) pg in
         let trips := V0.trips_request (parseInt P (V0.in_year pg)) in
         let summary := V0.summary_request (parseInt P (V0.in_year pg)) in
         events r0 = [Issued trips]
         /\ events (step srv 0 r0)
            = match srv trips with
              | Throw _ => [Issued trips; Answered trips]
              | Return _ => [Issued trips; Answered trips; Issued summary]
              end
         /\ settled (task (step srv 0 r0))
            = match srv trips with
              | Throw m => Some (Throw m)
              | Return _ => None
              end).
Proof.
  split; [|split].
  - intros w. cbv zeta. split; [reflexivity|].
    pose proof (app_refresh_any_order P srv w) as H.
    pose proof (app_refresh_settles_after_both P srv w) as S.
    cbv zeta in H, S.
    destruct H as (H1 & H2 & H3 & H4 & H5).
    repeat (split; [assumption|]).
    split; [eexists; reflexivity|].
    split; [reflexivity|]. exact S.
  - intros pg. cbv zeta. split; [reflexivity|].
    pose proof (v1_refresh_any_order P srv pg) as H.
    pose proof (v1_refresh_settles_after_both P srv pg) as S.
    cbv zeta in H, S.
    destruct H as (H1 & H2 & H3 & H4 & H5).
    repeat (split; [assumption|]).
    split; [eexists; reflexivity|].
    split; [reflexivity|]. exact S.
  - intros pg. exact (v0_refresh_in_sequence P srv pg).
Qed.

(** ** Where the reimbursement figure comes from *)

(** C1 as stated fails for app.js: with one filtered trip of 10 km, and a
    summary reply that carries the rates 3.94 and 2.28 and an estimate of
    1000, the stats bar shows [39,40 kr], the formatted product
    [10 * 3.94], and not the estimate of the server, which would read
    [1.000,00 kr]. *)
Lemma app_recomputes_reimbursement_counterexample :
  Sample.server (App.summary_request 2024) = Return Sample.summary
  /\ reimbursement_estimate Sample.summary = Some 1000%float
  /\ App.stat_amount
       (App.stats
          (world (step Sample.server 0
                    (call (App.loadSummary Sample.platform)
                          Sample.app_world))))
     = "39,40 kr"
  /\ (App.formatNumber Sample.platform 1000 2 ++ " kr")%string
     = "1.000,00 kr"
  /\ App.reimbursement
       (App.filteredTrips (App.state Sample.app_world))
       {| App.high := rate_high Sample.summary;
          App.low := rate_low Sample.summary |}
     = (10 * 3.94)%float
  /\ (10 * 3.94 =? 1000)%float = false.
Proof. repeat split; reflexivity. Qed.

(** C1 (amended): the two early versions contain no reimbursement
    computation: the figure they show is the estimate returned by
    [GET /api/summary], formatted.  app.js does not show that estimate: the
    amount in its stats bar is computed in the client from the distances of
    the filtered trips and the two rates returned by [GET /api/summary]. *)
Theorem reimbursement_figure_source (P : Platform) (srv : Server) :
  (forall pg : V0.Page,
      let y := parseInt P (V0.in_year pg) in
      let r := run srv trips_first (call (V0.refresh P) pg) in
      match srv (V0.trips_request y), srv (V0.summary_request y) with
      | Return _, Return s =>
          V0.el_summary (world r)
          = ("Trips: " ++ string_of_Z (trip_count s)
             ++ " | Total km: " ++ toFixed P (total_km s) 3
             ++ " | Est. reimbursement: "
             ++ match reimbursement_estimate s with
                | Some e => toFixed P e 2
                | None => "undefined"
                end
             ++ " DKK")%string
      | _, _ => V0.el_summary (world r) = V0.el_summary pg
      end)
  /\ (forall pg : V1.Page,
         let y := parseInt P (V1.in_year pg) in
         let r := run srv trips_first (call (V1.refresh P) pg) in
         match srv (V1.summary_request y) with
         | Return s =>
             match reimbursement_estimate s with
             | Some e =>
                 option_map V1.box_amount (V1.el_summary (world r))
                 = Some (toLocaleString P e (Some 2%nat) None)
             | None => V1.el_summary (world r) = V1.el_summary pg
             end
         | Throw _ => V1.el_summary (world r) = V1.el_summary pg
         end)
  /\ (forall w : App.World,
         let r := step srv 0 (call (App.loadSummary P) w) in
         match srv (App.summary_request (App.selectedYear (App.state w))) with
         | Return s =>
             App.stat_amount (App.stats (world r))
             = (App.formatNumber P
                  (App.reimbursement
                     (App.filteredTrips (App.state w))
                     {| App.high := rate_high s; App.low := rate_low s |}) 2
                ++ " kr")%string
         | Throw _ => App.stats (world r) = App.stats w
         end)
  /\ (forall (l : list Trip) (rates : App.Rates),
         App.reimbursement l rates
         = if (App.totalKm l <=? 20000)%float
           then (App.totalKm l * App.high rates)%float
           else (20000 * App.high rates
                 + (App.totalKm l - 20000) * App.low rates)%float).
Proof.
  split; [|split; [|split]].
  - intros pg. cbv zeta.
    remember (srv (V0.trips_request (parseInt P (V0.in_year pg)))) as a eqn:Ha.
    remember (srv (V0.summary_request (parseInt P (V0.in_year pg))))
      as b eqn:Hb.
    symmetry in Ha, Hb.
    unfold trips_first, run, step, call.
    replay Ha Hb.
    cbn in a, b.
    destruct a as [ma|l]; replay Ha Hb.
    + reflexivity.
    + destruct b as [mb|s]; replay Ha Hb; reflexivity.
  - intros pg. cbv zeta. rewrite v1_refresh_call.
    remember (srv (V1.trips_request (parseInt P (V1.in_year pg)))) as a eqn:Ha.
    remember (srv (V1.summary_request (parseInt P (V1.in_year pg))))
      as b eqn:Hb.
    symmetry in Ha, Hb.
    unfold trips_first, run, step.
    cbn [task pending snd V1.refresh V1.loadTrips V1.loadSummary
         all2 join2 fst app nth_error world events].
    replay Ha Hb.
    cbn in a, b.
    destruct a as [ma|l], b as [mb|s]; replay Ha Hb.
    all: try (destruct l as [|t l]; replay Ha Hb).
    all: try (unfold V1.summary_box;
              destruct (reimbursement_estimate s) as [e|];
              replay Ha Hb).
    all: reflexivity.
  - intros w. cbv zeta.
    remember (srv (App.summary_request (App.selectedYear (App.state w))))
      as b eqn:Hb.
    symmetry in Hb.
    unfold step, call. replay Hb Hb.
    cbn in b. destruct b as [mb|s]; reflexivity.
  - intros l rates. reflexivity.
Qed.

(** * Further properties *)

(** ** What escaping leaves in the text *)

(** [c] occurs in a concatenation when it occurs in a part. *)
Lemma includes_char_app (c : ascii) (a b : string) :
  includes (String c "") (a ++ b)%string
  = includes (String c "") a || includes (String c "") b.
Proof.
  induction a as [|x a IH].
  - cbn [append includes starts_with].
    destruct b; cbn; reflexivity.
  - cbn [append includes starts_with]. rewrite IH.
    destruct (Ascii.eqb c x); cbn; [reflexivity|].
    destruct a, b; reflexivity.
Qed.

(** A replacement whose inserted texts are free of [c] leaves no [c] of
    the class behind. *)
Lemma replace_class_removes (cls : ascii -> bool) (f : string -> option string)
    (c : ascii) (s : string) :
  cls c = true ->
  (forall m, includes (String c "")
               match f m with Some r => r | None => "undefined" end = false) ->
  includes (String c "") (Html.replace_class cls f s) = false.
Proof.
  intros Hc Hf. induction s as [|x s IH]; [reflexivity|].
  cbn [Html.replace_class]. rewrite includes_char_app, IH, orb_false_r.
  destruct (cls x) eqn:Hx; [apply Hf|].
  cbn. destruct (Ascii.eqb_spec c x) as [->|]; [congruence|reflexivity].
Qed.



(** X3: the [data-event] attribute of a calendar card holds no
    apostrophe, so the single-quoted attribute ends where the template
    ends it, whatever the event and the platform. *)
Theorem calendar_card_data_has_no_apostrophe
    (P : Platform) (e : CalendarEvent) :
  includes "'" (App.card_data (App.render_event P e)) = false.
Proof.
  unfold App.render_event. cbn [App.card_data].
  apply replace_class_removes; [reflexivity|]. intros m. reflexivity.
Qed.





(** ** The sheet *)

(** X4: after [renderTrips] exactly one of the three is on show: the
    loading indicator, the empty state, or the rows.  When the page is not
    loading there is one row per filtered trip, and the trip count of the
    stats bar is the number of filtered trips either way. *)
Theorem renderTrips_shows_one_panel (P : Platform) (w : App.World) :
  let sh := App.sheet (App.renderTrips P w) in
  (Nat.b2n (negb (App.loading_hidden sh))
   + Nat.b2n (negb (App.empty_hidden sh))
   + Nat.b2n (has_rows (App.sheet_body sh)) = 1)%nat
  /\ (if App.isLoading (App.state w)
      then App.sheet_body sh = []
      else List.length (App.sheet_body sh)
           = List.length (App.filteredTrips (App.state w)))
  /\ App.stat_trips (App.stats (App.renderTrips P w))
     = string_of_nat (List.length (App.filteredTrips (App.state w))).
Proof.
  cbv zeta. unfold App.renderTrips. cbv zeta.
  cbn [App.sheet App.with_sheet App.sheet_body App.empty_hidden
       App.loading_hidden App.state App.updateStatsDisplay App.with_stats
       App.stats App.stat_trips].
  destruct (App.isLoading (App.state w));
    destruct (App.filteredTrips (App.state w)) as [|t l]; cbn;
    repeat split; try reflexivity.
  now rewrite length_map.
Qed.

Lemma loadTrips_step (P : Platform) (srv : Server) (w : App.World) :
  step srv 0 (call (App.loadTrips P) w)
  = {| world :=
         loadTrips_done P
           (srv (App.trips_request (App.selectedYear (App.state w)))) w;
       task := Done;
       events :=
         [ Issued (App.trips_request (App.selectedYear (App.state w)));
           Answered (App.trips_request (App.selectedYear (App.state w))) ] |}.
Proof.
  unfold step, call, App.loadTrips. cbv zeta.
  cbn [task pending nth_error world events map settle app].
  change (App.selectedYear (App.state (App.setLoading true w)))
    with (App.selectedYear (App.state w)).
  remember (srv (App.trips_request (App.selectedYear (App.state w))))
    as a eqn:Ha.
  cbn in a. destruct a; reflexivity.
Qed.

Lemma renderTrips_state (P : Platform) (w : App.World) :
  App.state (App.renderTrips P w) = App.state w.
Proof. reflexivity. Qed.

Lemma renderTrips_while_loading (P : Platform) (w : App.World) :
  App.isLoading (App.state w) = true ->
  App.sheet (App.renderTrips P w)
  = {| App.sheet_body := []; App.empty_hidden := true;
       App.loading_hidden := false |}.
Proof.
  intros H. unfold App.renderTrips. cbv zeta.
  cbn [App.sheet App.with_sheet App.state App.updateStatsDisplay
       App.with_stats].
  rewrite H, !orb_true_r. reflexivity.
Qed.

Lemma renderTrips_when_idle (P : Platform) (w : App.World) :
  App.isLoading (App.state w) = false ->
  App.sheet_body (App.sheet (App.renderTrips P w))
  = map (App.render_row P) (App.filteredTrips (App.state w)).
Proof.
  intros H. unfold App.renderTrips. cbv zeta.
  cbn [App.sheet App.with_sheet App.sheet_body App.state
       App.updateStatsDisplay App.with_stats].
  rewrite H, orb_false_r.
  destruct (App.filteredTrips (App.state w)); reflexivity.
Qed.

(** X5: when [loadTrips] has received the trips, it has stored them and
    filtered them, but the sheet shows neither rows nor the empty state:
    the rows were rendered while the loading flag was still set.  A later
    [selectMonth] shows one row per filtered trip. *)
Theorem loadTrips_leaves_the_sheet_blank
    (P : Platform) (srv : Server) (w : App.World) :
  let r := step srv 0 (call (App.loadTrips P) w) in
  match srv (App.trips_request (App.selectedYear (App.state w))) with
  | Throw m =>
      App.trips (App.state (world r)) = App.trips (App.state w)
      /\ App.filteredTrips (App.state (world r))
         = App.filteredTrips (App.state w)
      /\ App.isLoading (App.state (world r)) = false
      /\ App.toasts (world r)
         = App.toasts w
           ++ [ {| App.toast_type := "error";
                   App.toast_message := App.escapeHtml P (Some m) |} ]
  | Return l =>
      quiescent r = true
      /\ App.trips (App.state (world r)) = l
      /\ App.filteredTrips (App.state (world r))
         = filter (Stated.passes P (App.state w)) l
      /\ App.isLoading (App.state (world r)) = false
      /\ App.sheet (world r)
         = {| App.sheet_body := []; App.empty_hidden := true;
              App.loading_hidden := true |}
      /\ (forall month,
             App.sheet_body (App.sheet (App.selectMonth P month (world r)))
             = map (App.render_row P)
                   (App.filteredTrips
                      (App.state (App.selectMonth P month (world r)))))
  end.
Proof.
  cbv zeta. rewrite loadTrips_step. cbn [world task quiescent pending].
  remember (srv (App.trips_request (App.selectedYear (App.state w))))
    as a eqn:Ha.
  cbn in a. destruct a as [m|l]; unfold loadTrips_done.
  - repeat split.
  - split; [reflexivity|]. split; [reflexivity|].
    split.
    { exact (applyFilters_filter P
        (App.with_state (App.set_trips l (App.state (App.setLoading true w)))
                        (App.setLoading true w))). }
    split; [reflexivity|]. split.
    { unfold App.setLoading at 1, App.updateMonthTabIndicators.
      cbn [App.sheet App.with_sheet App.with_state App.with_tabs].
      rewrite renderTrips_while_loading by reflexivity. reflexivity. }
    intros month. unfold App.selectMonth. cbv zeta.
    rewrite renderTrips_when_idle; [now rewrite renderTrips_state|].
    reflexivity.
Qed.

(** ** Filters *)

Lemma filter_length_split {A : Type} (p : A -> bool) (l : list A) :
  (List.length (filter p l) + List.length (filter (fun x => negb (p x)) l)
   = List.length l)%nat.
Proof.
  induction l as [|x l IH]; [reflexivity|].
  cbn [filter]. destruct (p x); cbn [negb List.length]; lia.
Qed.

(** The state after the type filter has been set to [f]. *)
Lemma filtered_with_type (P : Platform) (f : string) (w : App.World) :
  App.filteredTrips (App.state (App.handleFilterClick P f w))
  = filter (Stated.passes P (App.set_activeFilter f (App.state w)))
           (App.trips (App.state w)).
Proof.
  unfold App.handleFilterClick. cbv zeta.
  unfold App.renderTrips. cbv zeta.
  cbn [App.state App.with_sheet App.updateStatsDisplay App.with_stats].
  rewrite applyFilters_filter. reflexivity.
Qed.

(** X6: every trip that passes the month and search filters is listed
    under exactly one of the two type filters: the round trips and the
    one-way trips together are as many as the trips listed under any
    other filter name, such as [all]. *)
Theorem type_filters_split_the_list (P : Platform) (w : App.World)
    (other : string) :
  String.eqb other "round-trip" = false ->
  String.eqb other "one-way" = false ->
  (List.length
     (App.filteredTrips (App.state (App.handleFilterClick P "round-trip" w)))
   + List.length
       (App.filteredTrips (App.state (App.handleFilterClick P "one-way" w)))
   = List.length
       (App.filteredTrips (App.state (App.handleFilterClick P other w))))%nat.
Proof.
  intros H1 H2. rewrite !filtered_with_type.
  set (l := App.trips (App.state w)).
  set (base := fun t => Stated.month_ok P (App.state w) t
                        && Stated.search_ok P (App.state w) t).
  assert (R : filter (Stated.passes P
                        (App.set_activeFilter "round-trip" (App.state w))) l
              = filter (fun t => round_trip t) (filter base l)).
  { rewrite filter_filter. apply filter_ext. intros t. reflexivity. }
  assert (O : filter (Stated.passes P
                        (App.set_activeFilter "one-way" (App.state w))) l
              = filter (fun t => negb (round_trip t)) (filter base l)).
  { rewrite filter_filter. apply filter_ext. intros t. reflexivity. }
  assert (A : filter (Stated.passes P
                        (App.set_activeFilter other (App.state w))) l
              = filter base l).
  { apply filter_ext. intros t. unfold Stated.passes, Stated.type_ok.
    cbn [App.activeFilter App.set_activeFilter]. rewrite H1, H2.
    unfold base. now rewrite andb_true_r. }
  rewrite R, O, A. apply filter_length_split.
Qed.

(** The sample page: its one trip is listed under one type filter. *)
Lemma type_filters_split_the_list_witness :
  (List.length
     (App.filteredTrips
        (App.state
           (App.handleFilterClick Sample.platform "round-trip"
              Sample.app_world)))
   + List.length
       (App.filteredTrips
          (App.state
             (App.handleFilterClick Sample.platform "one-way"
                Sample.app_world)))
   = List.length
       (App.filteredTrips
          (App.state
             (App.handleFilterClick Sample.platform "all"
                Sample.app_world))))%nat.
Proof.
  exact (type_filters_split_the_list Sample.platform Sample.app_world "all"
           eq_refl eq_refl).
Defined.

(** X7: with the month tab [all], an empty search box and a type filter
    that is neither [round-trip] nor [one-way] (the filter [all], or any
    unknown name), [applyFilters] keeps every trip, in order. *)
Theorem applyFilters_without_filters_keeps_all (P : Platform) (w : App.World) :
  App.selectedMonth (App.state w) = "all" ->
  App.searchQuery (App.state w) = "" ->
  String.eqb (App.activeFilter (App.state w)) "round-trip" = false ->
  String.eqb (App.activeFilter (App.state w)) "one-way" = false ->
  App.filteredTrips (App.state (App.applyFilters P w))
  = App.trips (App.state w).
Proof.
  intros Hm Hq H1 H2. rewrite applyFilters_filter.
  rewrite <- (filter_true (App.trips (App.state w))) at 2.
  apply filter_ext. intros t.
  unfold Stated.passes, Stated.month_ok, Stated.search_ok, Stated.type_ok.
  now rewrite Hm, Hq, H1, H2.
Qed.

(** The sample page has no filter set. *)
Lemma applyFilters_without_filters_keeps_all_witness :
  App.filteredTrips
    (App.state (App.applyFilters Sample.platform Sample.app_world))
  = App.trips (App.state Sample.app_world).
Proof.
  exact (applyFilters_without_filters_keeps_all Sample.platform
           Sample.app_world eq_refl eq_refl eq_refl eq_refl).
Defined.

(** X8: searching and choosing a type filter commute, and so does either
    with choosing a month tab: the page ends up the same in both orders. *)
Theorem filter_controls_commute (P : Platform) (w : App.World)
    (q f m : string) :
  App.handleSearch P q (App.handleFilterClick P f w)
  = App.handleFilterClick P f (App.handleSearch P q w)
  /\ App.handleSearch P q (App.selectMonth P m w)
     = App.selectMonth P m (App.handleSearch P q w)
  /\ App.handleFilterClick P f (App.selectMonth P m w)
     = App.selectMonth P m (App.handleFilterClick P f w).
Proof.
  destruct w as [st ra sts sh tb fb md cal to lr co]. destruct st.
  repeat split; lazy; reflexivity.
Qed.

(** ** Month tabs *)

(** X9: [updateMonthTabIndicators] keeps every tab, its month and its
    active mark.  The tab [all] is marked as having data, and carries a
    badge with the number of trips, exactly when there is a trip; a month
    tab is marked exactly when some trip falls in its month. *)
Theorem month_tabs_show_where_trips_are (P : Platform) (w : App.World) :
  let w' := App.updateMonthTabIndicators P w in
  let l := App.trips (App.state w) in
  map App.tab_month (App.tabs w') = map App.tab_month (App.tabs w)
  /\ map App.tab_active (App.tabs w') = map App.tab_active (App.tabs w)
  /\ (forall tab,
         In tab (App.tabs w) ->
         let tab' := App.update_tab P l tab in
         In tab' (App.tabs w')
         /\ (if String.eqb (App.tab_month tab) "all"
             then App.tab_count tab'
                  = match l with [] => None | _ :: _ => Some (List.length l) end
                  /\ App.tab_has_data tab'
                     = match l with [] => false | _ :: _ => true end
             else App.tab_count tab' = App.tab_count tab
                  /\ (App.tab_has_data tab' = true
                      <-> exists t,
                            In t l
                            /\ App.month_key_eq (App.tripMonth P t)
                                 (parseInt P (App.tab_month tab)) = true))).
Proof.
  cbv zeta. unfold App.updateMonthTabIndicators.
  cbn [App.tabs App.with_tabs].
  set (l := App.trips (App.state w)).
  split; [|split].
  - rewrite map_map. apply map_ext. intros tab. unfold App.update_tab.
    now destruct (String.eqb (App.tab_month tab) "all").
  - rewrite map_map. apply map_ext. intros tab. unfold App.update_tab.
    now destruct (String.eqb (App.tab_month tab) "all").
  - intros tab Hin. split; [now apply in_map|].
    unfold App.update_tab.
    destruct (String.eqb (App.tab_month tab) "all");
      cbn [App.tab_count App.tab_has_data].
    + destruct l; split; reflexivity.
    + split; [reflexivity|]. unfold App.month_count.
      rewrite Nat.ltb_lt. split.
      * intros H.
        destruct (filter _ l) as [|t rest] eqn:F; [cbn in H; lia|].
        assert (I : In t (filter
                            (fun t => App.month_key_eq (App.tripMonth P t)
                                        (parseInt P (App.tab_month tab))) l))
          by (rewrite F; now left).
        apply filter_In in I. now exists t.
      * intros [t [Ht Hk]].
        assert (I : In t (filter
                            (fun t => App.month_key_eq (App.tripMonth P t)
                                        (parseInt P (App.tab_month tab))) l))
          by (apply filter_In; now split).
        destruct (filter _ l); [destruct I|cbn; lia].
Qed.

(** ** The calendar dialog *)

(** X16: when [loadCalendarEvents] is done, the loading indicator is
    hidden and exactly one of the three panels is on show: the empty
    notice for a reply without events, the list for a reply with events
    (one card per event, in order), the not-connected notice for a
    failure. *)
Theorem calendar_shows_one_panel
    (P : Platform) (srv : Server) (w : App.World) :
  let r := step srv 0 (call (App.loadCalendarEvents P) w) in
  let c := App.calendar (world r) in
  quiescent r = true
  /\ App.cal_loading_hidden c = true
  /\ (Nat.b2n (negb (App.cal_empty_hidden c))
      + Nat.b2n (negb (App.cal_not_connected_hidden c))
      + Nat.b2n (negb (App.cal_events_hidden c)) = 1)%nat
  /\ match srv App.calendar_request with
     | Throw _ => App.cal_not_connected_hidden c = false
     | Return None | Return (Some []) => App.cal_empty_hidden c = false
     | Return (Some evs) =>
         App.cal_events_hidden c = false
         /\ App.cal_events c = map (App.render_event P) evs
     end.
Proof.
  cbv zeta.
  remember (srv App.calendar_request) as a eqn:Ha. symmetry in Ha.
  unfold step, call, App.loadCalendarEvents.
  cbn [task pending nth_error world events map settle].
  rewrite Ha. cbn in a.
  destruct a as [m|[[|e evs]|]]; cbn; repeat split.
  all: unfold App.not_configured;
    destruct (includes "not configured" m || includes "501" m); reflexivity.
Qed.

(** ** Submitting the trip form *)

(** The request the submit handler issues: the edit request while a trip
    is being edited, the create request otherwise. *)
Lemma submit_request (P : Platform) (w : App.World) :
  events (call (App.handleTripFormSubmit P) w)
  = [ Issued (if App.editing (App.state w)
              then App.patch_request P w else App.post_request P w) ].
Proof.
  unfold call, App.handleTripFormSubmit. cbv zeta.
  cbn [App.state App.with_modal].
  destruct (App.editing (App.state w)); reflexivity.
Qed.

(** X10: when the request of the submit handler fails with message [m],
    nothing is reloaded and the dialog stays as it was, with the form
    and the edit target untouched; the message is toasted as an error and
    the button is enabled again, labelled for the mode the dialog is
    in. *)
Theorem failed_submit_keeps_the_dialog
    (P : Platform) (srv : Server) (w : App.World) :
  let r := step srv 0 (call (App.handleTripFormSubmit P) w) in
  let after (q : Req) (m : string) : Prop :=
    quiescent r = true
    /\ events r = [Issued q; Answered q]
    /\ App.state (world r) = App.state w
    /\ App.sheet (world r) = App.sheet w
    /\ App.stats (world r) = App.stats w
    /\ App.modal (world r)
       = App.set_button false
           (if App.editing (App.state w) then "Gem ændringer" else "Gem tur")
           true (App.modal w)
    /\ App.toasts (world r)
       = App.toasts w
         ++ [ {| App.toast_type := "error";
                 App.toast_message := App.escapeHtml P (Some m) |} ] in
  (App.editing (App.state w) = true ->
   match srv (App.patch_request P w) with
   | Throw m => after (App.patch_request P w) m
   | Return _ => True
   end)
  /\ (App.editing (App.state w) = false ->
      match srv (App.post_request P w) with
      | Throw m => after (App.post_request P w) m
      | Return _ => True
      end).
Proof.
  cbv zeta. split; intros He.
  - remember (srv (App.patch_request P w)) as a eqn:Ha. symmetry in Ha.
    unfold step, call, App.handleTripFormSubmit. cbv zeta.
    cbn [App.state App.with_modal]. rewrite He.
    cbn [task pending nth_error world events map settle app].
    change (App.patch_request P _) with (App.patch_request P w).
    rewrite Ha. cbn in a. destruct a as [m|u]; [|exact I].
    cbn [world task events quiescent pending List.length app].
    unfold App.submit_finally, App.showToast.
    cbn [App.state App.with_modal App.with_toast App.modal App.sheet
         App.stats App.toasts].
    rewrite He. destruct (App.modal w). repeat split.
  - remember (srv (App.post_request P w)) as a eqn:Ha. symmetry in Ha.
    unfold step, call, App.handleTripFormSubmit. cbv zeta.
    cbn [App.state App.with_modal]. rewrite He.
    cbn [task pending nth_error world events map settle app].
    change (App.post_request P _) with (App.post_request P w).
    rewrite Ha. cbn in a. destruct a as [m|u]; [|exact I].
    cbn [world task events quiescent pending List.length app].
    unfold App.submit_finally, App.showToast.
    cbn [App.state App.with_modal App.with_toast App.modal App.sheet
         App.stats App.toasts].
    rewrite He. destruct (App.modal w). repeat split.
Qed.

(** The replies recorded in [Ha], [Hb] and [Hc] are played back. *)

(** ** Dialogs *)

(** A function called from the larger world has the same requests in
    flight. *)
Lemma pending_lift_task {W S : Type} (get : S -> W) (set : W -> S -> S)
    (t : Task W) :
  pending (lift_task get set t) = pending t.
Proof.
  induction t as [| m | r k | a IHa b IHb k | bg IHbg t IHt];
    cbn [lift_task pending]; try reflexivity.
  - now rewrite IHa, IHb.
  - now rewrite IHbg, IHt.
Qed.

(** X11: [openTripModal] with an id that no loaded trip has leaves the
    dialog and the chips as they were, but has already recorded the id as
    the trip being edited: the next submission of the form is a PATCH to
    that id. *)
Theorem openTripModal_unknown_trip_marks_editing
    (P : Platform) (today : string) (id : Z) (s : App.Shell) :
  Z.eqb id 0 = false ->
  find (fun t => Z.eqb (trip_id t) id) (App.trips (App.state (App.app s)))
  = None ->
  let s' := App.openTripModal P today (Some id) s in
  App.modal (App.app s') = App.modal (App.app s)
  /\ App.origin_chips s' = App.origin_chips s
  /\ App.dest_chips s' = App.dest_chips s
  /\ App.editingTripId (App.state (App.app s')) = Some id
  /\ map (fun e => match e with
                   | Issued q => (method (http q), url (http q))
                   | Answered q => (method (http q), url (http q))
                   end)
         (events (call (App.handleTripFormSubmit P) (App.app s')))
     = [("PATCH", ("/api/trips/" ++ string_of_Z id)%string)].
Proof.
  intros Hid Hfind. cbv zeta. unfold App.openTripModal. cbv zeta.
  cbn [App.id_truthy]. rewrite Hid. cbn [negb].
  cbn [App.state App.with_state App.trips App.set_editingTripId].
  rewrite Hfind.
  repeat split.
  unfold call, App.handleTripFormSubmit. cbv zeta.
  cbn [App.app App.with_app App.state App.with_state App.with_modal
       App.editing App.editingTripId App.set_editingTripId].
  rewrite Hid. reflexivity.
Qed.

(** An unknown id on the sample page. *)
Lemma openTripModal_unknown_trip_marks_editing_witness :
  App.editingTripId
    (App.state (App.app (App.openTripModal Sample.platform "2024-03-05"
                           (Some 99%Z) Sample.shell)))
  = Some 99%Z
  /\ App.modal (App.app (App.openTripModal Sample.platform "2024-03-05"
                           (Some 99%Z) Sample.shell))
     = App.modal (App.app Sample.shell).
Proof.
  pose proof (openTripModal_unknown_trip_marks_editing Sample.platform
                "2024-03-05" 99%Z Sample.shell eq_refl eq_refl) as H.
  cbv zeta in H. split; [exact (proj1 (proj2 (proj2 (proj2 H))))|].
  exact (proj1 H).
Defined.

(** X12: [confirmDelete] without a target does nothing.  With a target it
    issues the DELETE request for it; on a failure the message is toasted
    and the confirmation dialog stays open with its target, and nothing is
    reloaded; on a success the dialog is closed, the target is forgotten
    and the two requests of [refresh] are issued. *)
Theorem confirmDelete_outcomes
    (P : Platform) (srv : Server) (s : App.Shell) :
  let r0 := call (App.confirmDelete P) s in
  let r := step srv 0 r0 in
  let d := App.delete_request (App.deleteTargetId (App.state (App.app s))) in
  let y := App.selectedYear (App.state (App.app s)) in
  if App.id_truthy (App.deleteTargetId (App.state (App.app s)))
  then
    world r0 = s
    /\ events r0 = [Issued d]
    /\ match srv d with
       | Throw m =>
           events r = [Issued d; Answered d]
           /\ quiescent r = true
           /\ App.delete_backdrop_hidden (world r)
              = App.delete_backdrop_hidden s
           /\ App.state (App.app (world r)) = App.state (App.app s)
           /\ App.toasts (App.app (world r))
              = App.toasts (App.app s)
                ++ [ {| App.toast_type := "error";
                        App.toast_message := App.escapeHtml P (Some m) |} ]
       | Return _ =>
           events r
           = [ Issued d; Answered d;
               Issued (App.trips_request y); Issued (App.summary_request y) ]
           /\ App.delete_backdrop_hidden (world r) = true
           /\ App.deleteTargetId (App.state (App.app (world r))) = None
           /\ App.isLoading (App.state (App.app (world r))) = true
           /\ App.toasts (App.app (world r))
              = App.toasts (App.app s)
                ++ [ {| App.toast_type := "success";
                        App.toast_message
                        := App.escapeHtml P (Some "Tur slettet") |} ]
       end
  else r0 = {| world := s; task := Done; events := [] |}.
Proof.
  cbv zeta. unfold call, App.confirmDelete.
  destruct (App.id_truthy (App.deleteTargetId (App.state (App.app s))));
    cbn [negb]; [|reflexivity].
  split; [reflexivity|]. split; [reflexivity|].
  remember (srv (App.delete_request
                   (App.deleteTargetId (App.state (App.app s))))) as a eqn:Ha.
  symmetry in Ha.
  unfold step. cbn [task pending nth_error world events settle].
  rewrite Ha. cbn in a. destruct a as [m|u].
  - repeat split.
  - unfold lift, App.refresh, App.loadTrips, App.loadSummary, all2, join2.
    cbn [fst snd lift_task await_task pending app map world events].
    repeat split.
Qed.

(** ** Year navigation *)

(** X13: [prevYear] shows the year before, in both labels, and asks for
    its trips and its summary; [nextYear] after it is back at the year and
    the labels it started from, and asks for those. *)
Theorem year_navigation_round_trip (P : Platform) (s : App.Shell) :
  let y := App.selectedYear (App.state (App.app s)) in
  let r1 := call (App.prevYear P) s in
  let r2 := call (App.nextYear P) (world r1) in
  events r1
  = [Issued (App.trips_request (y - 1)); Issued (App.summary_request (y - 1))]
  /\ App.selectedYear (App.state (App.app (world r1))) = (y - 1)%Z
  /\ App.year_display (world r1) = string_of_Z (y - 1)
  /\ App.current_year_label (world r1) = string_of_Z (y - 1)
  /\ events r2
     = [Issued (App.trips_request y); Issued (App.summary_request y)]
  /\ App.selectedYear (App.state (App.app (world r2))) = y
  /\ App.year_display (world r2) = string_of_Z y
  /\ App.current_year_label (world r2) = string_of_Z y
  /\ App.trips (App.state (App.app (world r2)))
     = App.trips (App.state (App.app s)).
Proof.
  cbv zeta.
  assert (E : (App.selectedYear (App.state (App.app s)) - 1 + 1
               = App.selectedYear (App.state (App.app s)))%Z) by lia.
  unfold call, App.prevYear, App.nextYear, App.selectYear,
    App.updateYearDisplay, lift, App.refresh, App.loadTrips, App.loadSummary,
    all2, join2.
  cbn [fst snd lift_task pending app map world events task
       App.app App.with_app App.state App.with_state App.selectedYear
       App.set_selectedYear App.with_year_labels App.year_display
       App.current_year_label App.setLoading App.set_isLoading App.trips
       App.with_sheet].
  rewrite !E. repeat split.
Qed.

(** ** Keyboard *)

(** X14: after the Escape key no dialog is open, whichever were open
    before and whatever modifier keys are held; a confirmation dialog that
    was open has lost its target, a trip dialog that was open has lost its
    edit target, and the trips are untouched. *)
Theorem escape_closes_every_dialog
    (P : Platform) (today : string) (ctrl meta : bool) (s : App.Shell) :
  let s' := App.handleKeyboardShortcuts P today
              {| App.ctrlKey := ctrl; App.metaKey := meta;
                 App.key := "Escape" |} s in
  App.delete_backdrop_hidden s' = true
  /\ App.backdrop_hidden (App.modal (App.app s')) = true
  /\ App.calendar_backdrop_hidden s' = true
  /\ App.deleteTargetId (App.state (App.app s'))
     = (if App.delete_backdrop_hidden s
        then App.deleteTargetId (App.state (App.app s)) else None)
  /\ App.editingTripId (App.state (App.app s'))
     = (if App.backdrop_hidden (App.modal (App.app s))
        then App.editingTripId (App.state (App.app s)) else None)
  /\ App.trips (App.state (App.app s')) = App.trips (App.state (App.app s))
  /\ App.location_href s' = App.location_href s.
Proof.
  cbv zeta. unfold App.handleKeyboardShortcuts. cbv zeta.
  cbn [App.ctrlKey App.metaKey App.key].
  change (String.eqb "Escape" "n") with false.
  change (String.eqb "Escape" "e") with false.
  change (String.eqb "Escape" "Escape") with true.
  rewrite !andb_false_r. cbv iota.
  destruct s as [w oc dc dh ch yd yl href].
  destruct w as [st ra sts sh tb fb md cal to lr co].
  destruct md as [bh mt bt bd sp d1 d2 d3 d4 d5 ph pt].
  destruct dh, bh, ch; cbn; repeat split.
Qed.

(** ** From a calendar event to a trip *)

(** X15: [addTripFromEvent] closes the calendar dialog and opens the trip
    dialog in add mode, with the date, the title and the location of the
    event in the form and the home address, when there is a home, as
    origin.  Submitting the form then creates a trip: one POST to
    [/api/trips] whose body carries these values. *)
Theorem event_trip_is_submitted_as_new
    (P : Platform) (today : string) (e : App.EventData) (s : App.Shell) :
  let s' := App.addTripFromEvent P today e s in
  let home := find (fun l => is_home l)
                   (App.locations (App.state (App.app s))) in
  let from := match home with
              | Some h => formatAddress h
              | None => ""%string
              end in
  App.calendar_backdrop_hidden s' = true
  /\ App.backdrop_hidden (App.modal (App.app s')) = false
  /\ App.modal_title (App.modal (App.app s')) = "Tilføj tur"%string
  /\ App.editingTripId (App.state (App.app s')) = None
  /\ App.selectedOrigin (App.state (App.app s'))
     = match home with
       | Some h => Some (loc_id h)
       | None => App.selectedOrigin (App.state (App.app s))
       end
  /\ events (call (App.handleTripFormSubmit P) (App.app s'))
     = [ Issued
           {| endpoint := CreateTrip;
              http :=
                {| method := "POST"; url := "/api/trips";
                   headers := [("Content-Type", "application/json")];
                   body :=
                     Some (JSON_stringify P
                             (JObj [ ("trip_date", JStr (App.data_date e));
                                     ("purpose", JStr (App.data_title e));
                                     ("origin", JStr from);
                                     ("destination",
                                      JStr (App.data_location e));
                                     ("round_trip", JBool true);
                                     ("travel_mode", JStr "DRIVE") ])) |} |} ].
Proof.
  cbv zeta. unfold App.addTripFromEvent, App.openTripModal,
    App.closeCalendarModal. cbv zeta.
  cbn [App.id_truthy App.app App.with_app App.with_calendar_backdrop
       App.state App.with_state App.locations App.set_editingTripId].
  destruct (find (fun l => is_home l)
                 (App.locations (App.state (App.app s)))) as [h|];
    repeat split.
Qed.

(** ** The location buttons of the second version *)

(** X17: when the locations arrive, they are stored and shown, and the
    home address becomes the origin only if the origin input is still
    empty: what the user has typed is never overwritten.  The buttons show
    the selection that results. *)
Theorem v1_locations_keep_typed_origin
    (l : list Location) (pg : V1.Page) :
  let pg' := V1.loadLocations_then (Return l) pg in
  V1.locations pg' = l
  /\ buttons_in_step pg'
  /\ V1.selectedDest pg' = V1.selectedDest pg
  /\ V1.in_destination pg' = V1.in_destination pg
  /\ (if str_truthy (V1.in_origin pg)
      then V1.in_origin pg' = V1.in_origin pg
           /\ V1.selectedOrigin pg' = V1.selectedOrigin pg
      else match find (fun loc => is_home loc) l with
           | Some home =>
               V1.in_origin pg' = formatAddress home
               /\ V1.selectedOrigin pg' = Some (loc_id home)
           | None =>
               V1.in_origin pg' = V1.in_origin pg
               /\ V1.selectedOrigin pg' = V1.selectedOrigin pg
           end).
Proof.
  cbv zeta. unfold V1.loadLocations_then, buttons_in_step. cbv zeta.
  cbn [V1.renderLocations V1.with_locations V1.with_location_buttons
       V1.in_origin V1.locations V1.selectedOrigin V1.selectedDest].
  destruct (find (fun loc => is_home loc) l) as [home|];
    destruct (str_truthy (V1.in_origin pg)); cbn; repeat split.
Qed.

(** X18: after a click on a location button, or after typing into the
    origin or the destination input, the buttons show the selection held
    in the variables.  Typing drops the selection of that side; a click
    on one side leaves the other side alone; a click on an unselected
    button selects its location, and a click on the selected one clears
    both the selection and the input. *)
Theorem v1_buttons_follow_selection
    (loc : Location) (value : string) (pg : V1.Page) :
  buttons_in_step (V1.click_origin loc pg)
  /\ buttons_in_step (V1.click_dest loc pg)
  /\ buttons_in_step (V1.input_origin value pg)
  /\ buttons_in_step (V1.input_dest value pg)
  /\ V1.selectedOrigin (V1.input_origin value pg) = None
  /\ V1.selectedDest (V1.input_dest value pg) = None
  /\ V1.selectedDest (V1.click_origin loc pg) = V1.selectedDest pg
  /\ V1.in_destination (V1.click_origin loc pg) = V1.in_destination pg
  /\ V1.selectedOrigin (V1.click_dest loc pg) = V1.selectedOrigin pg
  /\ V1.in_origin (V1.click_dest loc pg) = V1.in_origin pg
  /\ (if V1.is_selected (V1.selectedOrigin pg) loc
      then V1.selectedOrigin (V1.click_origin loc pg) = None
           /\ V1.in_origin (V1.click_origin loc pg) = ""%string
      else V1.selectedOrigin (V1.click_origin loc pg) = Some (loc_id loc)
           /\ V1.in_origin (V1.click_origin loc pg)
              = (if Z.eqb (loc_id loc) 0 then ""%string
                 else formatAddress loc)).
Proof.
  unfold buttons_in_step, V1.click_origin, V1.click_dest, V1.input_origin,
    V1.input_dest, V1.toggle. cbv zeta.
  destruct (V1.is_selected (V1.selectedOrigin pg) loc);
    destruct (V1.is_selected (V1.selectedDest pg) loc);
    cbn; repeat split.
Qed.
